(** * DiscordLiveChat: a shallow embedding of [live_chat.py]

    The program reads a JSON configuration file, builds one [LiveChatBot] per
    entry of its [bots] array and keeps them in a [DiscordBotManager].  The
    embedding follows the Python text: JSON data are Python values, [dict.get]
    is a lookup with a default, exceptions are results in a small monad that
    also records what is written to the logger and what is handed to the
    [discord.Client] constructor. *)

From Stdlib Require Import ZArith String List Bool.
From stdpp Require Import base strings list gmap.
From Equations Require Import Equations.
From Equations.Prop Require Import Logic.

Local Open Scope string_scope.

Set Warnings "-register-all".

(** ** Python values produced by [json.load] *)

Inductive value : Type :=
| VNone
| VBool (b : bool)
| VInt (z : Z)
| VFloat (literal : string)
| VStr (s : string)
| VList (items : list value)
| VDict (items : list (string * value)).

(** The exception classes the program can end with. *)
Inductive exn : Type :=
| ValueError (msg : string)
| IOError (msg : string)
| AttributeError (what : string)
| KeyError (key : string)
| TypeError (what : string)
| JSONDecodeError.

(** [x == None] *)
Definition eq_None (v : value) : bool :=
  match v with VNone => true | _ => false end.

(** [x == ""] *)
Definition eq_empty_str (v : value) : bool :=
  match v with VStr "" => true | _ => false end.

(** The items of a [dict], in insertion order; a key is looked up from the
    front. *)
Fixpoint dict_lookup {A : Type} (key : string) (items : list (string * A)) : option A :=
  match items with
  | [] => None
  | (k, v) :: rest => if String.eqb k key then Some v else dict_lookup key rest
  end.

(** ** The discord.py objects the program touches

    [discord.Intents] and [discord.Client] are not part of the repository.
    The local [intents] object of [build_intents] is represented by the
    attribute assignments made on it, oldest first; whether an assignment or
    the [Client] constructor raises is the library's decision. *)

Definition intents_obj : Type := list (string * value).

Record discord_lib : Type := {
  (** [intents.<attr> = v]: [Some e] when the library raises [e] *)
  Intents_setattr : intents_obj -> string -> value -> option exn;
  (** [discord.Client.__init__(self, intents = i)] *)
  Client_init : option intents_obj -> option exn
}.

(** ** Observable effects *)

Inductive log_line : Type :=
| IntentLine (self_name : value) (intent_name : string) (intent : value)
| CreatedLine (self_name : value)
| ManagerLine (count : nat).

Inductive event : Type :=
| LogInfo (line : log_line)
| SuperInit (intents : option intents_obj).

(** A computation emits events and then returns or raises. *)
Definition M (A : Type) : Type := list event * (exn + A).

Definition raise {A : Type} (e : exn) : M A := ([], inl e).
Definition emit (ev : event) : M unit := ([ev], inr tt).

#[global] Instance M_ret : MRet M := fun A a => ([], inr a).

#[global] Instance M_bind : MBind M := fun A B f m =>
  match m with
  | (t, inl e) => (t, inl e)
  | (t, inr a) => let '(t', r) := f a in ((t ++ t')%list, r)
  end.

Definition trace {A : Type} (m : M A) : list event := m.1.
Definition outcome {A : Type} (m : M A) : exn + A := m.2.

(** [obj.get(key, default)]: only a [dict] has the method. *)
Definition py_get (obj : value) (key : string) (default : value) : M value :=
  match obj with
  | VDict items => mret (from_option id default (dict_lookup key items))
  | _ => raise (AttributeError "get")
  end.

(** ** [LiveChatBot] *)

(** The attributes set on a [LiveChatBot] instance ([self.__dict__]). *)
Abbreviation instance := (gmap string value).

(** [self.<attr>] *)
Definition py_getattr (self : instance) (attr : string) : M value :=
  match self !! attr with
  | Some v => mret v
  | None => raise (AttributeError attr)
  end.

(** [DEFAULT_INTENTS], in the order of the source. *)
Definition DEFAULT_INTENTS : list (string * value) :=
  [ ("auto_moderation", VBool false);
    ("auto_moderation_configuration", VBool false);
    ("auto_moderation_execution", VBool false);
    ("bans", VBool false);
    ("dm_messages", VBool false);
    ("dm_reactions", VBool false);
    ("dm_typing", VBool false);
    ("emojis_and_stickers", VBool false);
    ("guild_messages", VBool true);
    ("guild_reactions", VBool false);
    ("guild_scheduled_events", VBool false);
    ("guild_typing", VBool false);
    ("guilds", VBool true);
    ("integrations", VBool false);
    ("invites", VBool false);
    ("members", VBool true);
    ("message_content", VBool true);
    ("presences", VBool false);
    ("voice_states", VBool false);
    ("webhooks", VBool true) ].

(** [DEFAULT_INTENTS[key]] *)
Definition DEFAULT_INTENTS_getitem (key : string) : M value :=
  match dict_lookup key DEFAULT_INTENTS with
  | Some v => mret v
  | None => raise (KeyError key)
  end.

(** The attributes [build_intents] assigns, in the order of its statements. *)
Definition INTENT_ATTRS : list string :=
  [ "auto_moderation"; "auto_moderation_configuration";
    "auto_moderation_execution"; "bans"; "dm_messages"; "dm_reactions";
    "dm_typing"; "emojis_and_stickers"; "guild_messages"; "guild_reactions";
    "guild_scheduled_events"; "guild_typing"; "guilds"; "integrations";
    "invites"; "members"; "message_content"; "presences"; "voice_states";
    "webhooks" ].

(** [get_intent(self, configuration, intent_name)].  [intent_name] is [None]
    for Python's [None].  In the call [configuration.get(intent_name,
    DEFAULT_INTENTS[intent_name])] the method is looked up before the
    arguments are evaluated. *)
Definition get_intent (self : instance) (configuration : value)
    (intent_name : option string) : M value :=
  if eq_None configuration then raise (ValueError "configuration is null.") else
  match intent_name with
  | None => raise (ValueError "intent_name is null.")
  | Some intent_name =>
      match configuration with
      | VDict _ =>
          default ← DEFAULT_INTENTS_getitem intent_name;
          intent ← py_get configuration intent_name default;
          self_name ← py_getattr self "name";
          emit (LogInfo (IntentLine self_name intent_name intent));;
          mret intent
      | _ => raise (AttributeError "get")
      end
  end.

Section LiveChatBot.

Context (lib : discord_lib).

(** The assignments [intents.<attr> = self.get_intent(configuration, "<attr>")]
    of [build_intents], one per element of [attrs]. *)
Fixpoint assign_intents (self : instance) (configuration : value)
    (attrs : list string) (intents : intents_obj) : M intents_obj :=
  match attrs with
  | [] => mret intents
  | attr :: rest =>
      v ← get_intent self configuration (Some attr);
      match Intents_setattr lib intents attr v with
      | Some e => raise e
      | None => assign_intents self configuration rest (intents ++ [(attr, v)])%list
      end
  end.

(** [build_intents(self, configuration)].  The function has no [return]
    statement: the value of a call is [None], whatever was assigned to the
    local [intents]. *)
Definition build_intents (self : instance) (configuration : value)
    : M (option intents_obj) :=
  if eq_None configuration then raise (ValueError "configuration is null.") else
  intents ← assign_intents self configuration INTENT_ATTRS [];
  mret None.

(** [super().__init__(intents = intents)] *)
Definition super_init (intents : option intents_obj) : M unit :=
  emit (SuperInit intents);;
  match Client_init lib intents with
  | Some e => raise e
  | None => mret tt
  end.

(** [LiveChatBot(configuration)]: the instance when [__init__] returns. *)
Definition LiveChatBot (configuration : value) : M instance :=
  if eq_None configuration then raise (ValueError "configuration is null.") else
  auth ← py_get configuration "auth" (VStr "");
  if eq_None auth || eq_empty_str auth then
    raise (ValueError "No API authentication token was provided in the bot configuration.")
  else
  name ← py_get configuration "name" (VStr "live_chat");
  let self : instance := <["name" := name]> ∅ in
  display_name ← py_get configuration "display_name" (VStr "Live Chat");
  let self : instance := <["display_name" := display_name]> self in
  intents_configuration ← py_get configuration "intents" (VDict DEFAULT_INTENTS);
  intents ← build_intents self intents_configuration;
  super_init intents;;
  self_name ← py_getattr self "name";
  emit (LogInfo (CreatedLine self_name));;
  mret self.

End LiveChatBot.

(** ** The host: file system, JSON decoder, working directory *)

Record file : Type := { readable : bool; content : string }.

Inductive node : Type :=
| Directory
| Regular (f : file).

Record host : Type := {
  (** what a path names, if anything *)
  fs : string -> option node;
  (** [json.load] on the text of a file; [None] when the text is not JSON *)
  json_load : string -> option value;
  (** [os.path.realpath(".")] *)
  cwd : string
}.

(** [os.path.isfile(path)] *)
Definition isfile (h : host) (path : string) : bool :=
  match fs h path with Some (Regular _) => true | _ => false end.

(** [os.access(path, R_OK)] *)
Definition access_R_OK (h : host) (path : string) : bool :=
  match fs h path with
  | Some (Regular f) => readable f
  | Some Directory => true
  | None => false
  end.

(** [path.endswith("/")] *)
Fixpoint ends_with_sep (path : string) : bool :=
  match path with
  | EmptyString => false
  | String c EmptyString => String.eqb (String c EmptyString) "/"
  | String _ rest => ends_with_sep rest
  end.

(** [os.path.join(a, b)] of [posixpath]. *)
Definition os_path_join (a b : string) : string :=
  if String.prefix "/" b then b
  else if String.eqb a "" || ends_with_sep a then a ++ b
  else a ++ "/" ++ b.

(** ** [DiscordBotManager] *)

Record manager : Type := {
  listen_address : value;
  listen_port : value;
  bots : list instance
}.

(** [len(x)] *)
Definition py_len (x : value) : M nat :=
  match x with
  | VStr s => mret (String.length s)
  | VList items => mret (length items)
  | VDict items => mret (length items)
  | _ => raise (TypeError "len")
  end.

(** The characters of a [str], each as a [str]. *)
Fixpoint chars (s : string) : list value :=
  match s with
  | EmptyString => []
  | String c rest => VStr (String c EmptyString) :: chars rest
  end.

(** What [for bot in x] iterates over. *)
Definition py_iter (x : value) : M (list value) :=
  match x with
  | VStr s => mret (chars s)
  | VList items => mret items
  | VDict items => mret (VStr <$> items.*1)
  | _ => raise (TypeError "iter")
  end.

Section DiscordBotManager.

Context (lib : discord_lib) (h : host).

(** The loop [for bot in bots_data: self.bots.append(LiveChatBot(bot))]. *)
Fixpoint append_bots (bots_data : list value) (bots : list instance)
    : M (list instance) :=
  match bots_data with
  | [] => mret bots
  | bot :: rest =>
      b ← LiveChatBot lib bot;
      append_bots rest (bots ++ [b])%list
  end.

(** [DiscordBotManager(configuration_path)]; [None] is Python's [None]. *)
Definition DiscordBotManager (configuration_path : option string) : M manager :=
  match configuration_path with
  | None => raise (ValueError "configuration_path is null.")
  | Some configuration_path =>
      if negb (isfile h configuration_path) then
        raise (IOError "configuration_path is not a file.")
      else if negb (access_R_OK h configuration_path) then
        raise (IOError "configuration_path is not readable.")
      else
      match fs h configuration_path with
      | Some (Regular f) =>
          match json_load h (content f) with
          | None => raise JSONDecodeError
          | Some json_data =>
              address ← py_get json_data "address" (VStr "0.0.0.0");
              port ← py_get json_data "port" (VInt 8080);
              bots_data ← py_get json_data "bots" (VList []);
              bots ← (if negb (eq_None bots_data) then
                        n ← py_len bots_data;
                        if Nat.ltb 0 n then
                          items ← py_iter bots_data;
                          append_bots items []
                        else mret []
                      else mret []);
              emit (LogInfo (ManagerLine (length bots)));;
              mret {| listen_address := address; listen_port := port; bots := bots |}
          end
      | _ => raise (IOError "configuration_path is not a file.")
      end
  end.

(** The module's top level: [argv] is [sys.argv]; the value is the
    [DISCORD_BOT_MANAGER] the module ends with. *)
Definition main (argv : list string) : M manager :=
  let arguments := drop 1 argv in
  let arguments_count := length arguments in
  let configuration_directory_path :=
    if Nat.leb 1 arguments_count then default "" (arguments !! 0)
    else cwd h in
  let configuration_directory_path := os_path_join configuration_directory_path "" in
  let DISCORD_CONFIGURATION_PATH :=
    os_path_join configuration_directory_path "configuration.json" in
  DiscordBotManager (Some DISCORD_CONFIGURATION_PATH).

End DiscordBotManager.

(** ** A model of discord.py 2.x for concrete runs

    [Intents] attributes take a [bool] and raise [TypeError] otherwise;
    [Client.__init__] accepts [None] (it then uses [Intents.default()]) and
    any [Intents] object. *)
Definition discord_py : discord_lib := {|
  Intents_setattr := fun _ attr v =>
    match v with
    | VBool _ => None
    | _ => Some (TypeError "Value to set for Intents must be a bool.")
    end;
  Client_init := fun _ => None
|}.

(** ** The session state machine of the design

    [live_chat.py] has no connection state machine: [LiveChatBot] only
    constructs a client.  The machine is therefore taken from section 4.3 of
    the design. *)

Module ChatBridgeSession.

Inductive state : Type :=
| Disconnected
| Connecting
| Connected
| Degraded (reason : string)
| ShuttingDown
| Closed.

Inductive signal : Type :=
| Start                         (* session start, or backoff delay elapsed *)
| HandshakeOk                   (* successful gateway handshake *)
| TransientError (reason : string)   (* rate limit, timeout *)
| Recovery                      (* recovery signal *)
| ConnectionLoss                (* connection loss *)
| Stop                          (* explicit stop *)
| Drained.                      (* queued commands drained or discarded *)

(** Modelled from the spec: the transitions of the ChatBridgeSession state
    machine, which the source does not implement.  [None] when the signal
    has no transition from the state. *)
Definition step (s : state) (e : signal) : option state :=
  match e, s with
  | Start, Disconnected => Some Connecting
  | HandshakeOk, Connecting => Some Connected
  | TransientError r, Connected => Some (Degraded r)
  | Recovery, Degraded _ => Some Connected
  | ConnectionLoss, (Connected | Degraded _) => Some Disconnected
  | Stop, (Disconnected | Connecting | Connected | Degraded _) => Some ShuttingDown
  | Drained, ShuttingDown => Some Closed
  | _, _ => None
  end.

(** Modelled from the spec: the states a session enters while it processes
    a sequence of signals from state [s]; a signal without a transition
    leaves the session where it is. *)
Fixpoint run (s : state) (signals : list signal) : list state :=
  match signals with
  | [] => []
  | e :: rest =>
      match step s e with
      | Some s' => s' :: run s' rest
      | None => run s rest
      end
  end.

(** Modelled from the spec: the history of a session, which starts
    [Disconnected]. *)
Definition history (signals : list signal) : list state :=
  Disconnected :: run Disconnected signals.

End ChatBridgeSession.

(** ** Vocabulary of the statements *)

(** The recognized flag names: the keys of [DEFAULT_INTENTS]. *)
Definition RECOGNIZED : list string := DEFAULT_INTENTS.*1.

(** The flags whose documented default is [True]. *)
Definition DEFAULT_TRUE : list string :=
  [ "guild_messages"; "guilds"; "members"; "message_content"; "webhooks" ].

(** The value a recognized flag resolves to under the overrides [d]. *)
Definition resolved (d : list (string * value)) (name : string) : value :=
  match dict_lookup name d with
  | Some v => v
  | None => VBool (bool_decide (name ∈ DEFAULT_TRUE))
  end.

(** An [auth] value that passes the check of [__init__]. *)
Definition auth_accepted (auth : value) : bool :=
  negb (eq_None auth || eq_empty_str auth).

(** The [auth] entry of a bot configuration is absent, null or empty. *)
Definition auth_unusable (d : list (string * value)) : Prop :=
  dict_lookup "auth" d = None ∨ dict_lookup "auth" d = Some VNone
  ∨ dict_lookup "auth" d = Some (VStr "").

(** The discord library raises no [ValueError] of its own. *)
Definition no_library_ValueError (lib : discord_lib) : Prop :=
  (∀ i attr v msg, Intents_setattr lib i attr v ≠ Some (ValueError msg))
  ∧ (∀ i msg, Client_init lib i ≠ Some (ValueError msg)).

(** The discord library accepts boolean flags and a missing intents object. *)
Definition library_accepts (lib : discord_lib) : Prop :=
  (∀ i attr b, Intents_setattr lib i attr (VBool b) = None)
  ∧ Client_init lib None = None.

(** The overrides give a [bool] to every recognized flag they name. *)
Definition bool_overrides (d : list (string * value)) : Prop :=
  ∀ name v, name ∈ RECOGNIZED → dict_lookup name d = Some v → ∃ b, v = VBool b.

(** The [intents] entry of a bot configuration is absent, or a mapping that
    gives booleans to the recognized flags. *)
Definition intents_well_formed (d : list (string * value)) : Prop :=
  dict_lookup "intents" d = None
  ∨ ∃ ov, dict_lookup "intents" d = Some (VDict ov) ∧ bool_overrides ov.

(** A log line about the flag [name]. *)
Definition reports (name : string) (ev : event) : Prop :=
  ∃ self_name v, ev = LogInfo (IntentLine self_name name v).

(** The policy of the design for unrecognized names: resolution fails with a
    configuration error, or a diagnostic names each of them. *)
Definition strict_or_lenient (lib : discord_lib) (self : instance)
    (d : list (string * value)) : Prop :=
  ∀ name, name ∈ d.*1 → name ∉ RECOGNIZED →
    (∃ msg, outcome (build_intents lib self (VDict d)) = inl (ValueError msg))
    ∨ ∃ ev, ev ∈ trace (build_intents lib self (VDict d)) ∧ reports name ev.

(** The overrides restricted to the recognized names. *)
Definition recognized_only (d : list (string * value)) : list (string * value) :=
  filter (λ kv, kv.1 ∈ RECOGNIZED) d.

(** The [name] attribute of the bots of a manager. *)
Definition bot_names (m : manager) : list (option value) :=
  (λ b : instance, b !! "name") <$> bots m.

(** A host with one readable file, whose text decodes to [json_data]. *)
Definition host_with (path : string) (json_data : value) : host := {|
  fs := fun p => if String.eqb p path
                 then Some (Regular {| readable := true; content := "{...}" |})
                 else None;
  json_load := fun _ => Some json_data;
  cwd := "/srv/live_chat"
|}.

(** A configuration file with the given [bots] array. *)
Definition configuration_with (entries : list value) : value :=
  VDict [ ("address", VStr "127.0.0.1"); ("port", VInt 8080);
          ("bots", VList entries) ].

(** An instance that already has its [name], as inside [__init__]. *)
Definition named (name : string) : instance := <["name" := VStr name]> ∅.

(** [configuration.get(key, default)] on the items of a [dict]. *)
Definition get_or (d : list (string * value)) (key : string) (default : value) : value :=
  from_option id default (dict_lookup key d).

(** The attributes [__init__] sets from the bot configuration [d]. *)
Definition instance_of (d : list (string * value)) : instance :=
  <["display_name" := get_or d "display_name" (VStr "Live Chat")]>
    (<["name" := get_or d "name" (VStr "live_chat")]> ∅).

(** [d[key] = v] on the items of a [dict]. *)
Fixpoint dict_set (key : string) (v : value) (d : list (string * value))
    : list (string * value) :=
  match d with
  | [] => [(key, v)]
  | (k, w) :: rest =>
      if String.eqb k key then (k, v) :: rest else (k, w) :: dict_set key v rest
  end.

(** The [auth] entry of a bot configuration is absent or the empty string. *)
Definition auth_absent_or_empty (d : list (string * value)) : Prop :=
  dict_lookup "auth" d = None ∨ dict_lookup "auth" d = Some (VStr "").

(** Construction ends with a [ValueError], the configuration error of the
    program. *)
Definition fails_with_ValueError (lib : discord_lib) (configuration : value) : Prop :=
  ∃ msg, outcome (LiveChatBot lib configuration) = inl (ValueError msg).

(** Construction returns an instance. *)
Definition constructs (lib : discord_lib) (configuration : value) : Prop :=
  ∃ self, outcome (LiveChatBot lib configuration) = inr self.

(** Sample bot configurations. *)
Definition bot_minimal : list (string * value) :=
  [ ("auth", VStr "token") ].

Definition bot_null_intents : list (string * value) :=
  [ ("auth", VStr "token"); ("intents", VNone) ].

Definition bot_named_null_intents : list (string * value) :=
  [ ("name", VStr "relay"); ("auth", VStr "token"); ("intents", VNone) ].

Definition bot_webhooks_off : list (string * value) :=
  [ ("name", VStr "relay"); ("auth", VStr "token");
    ("intents", VDict [("webhooks", VBool false)]) ].

(** The configuration file at [path] is a readable regular file whose text
    decodes to the JSON object [top]. *)
Definition loads (h : host) (path : string) (top : list (string * value)) : Prop :=
  ∃ f, fs h path = Some (Regular f) ∧ readable f = true
       ∧ json_load h (content f) = Some (VDict top).

(** Entry by entry, construction returns the instances [bs]. *)
Definition construct_to (lib : discord_lib) (entries : list value)
    (bs : list instance) : Prop :=
  Forall2 (λ entry b, outcome (LiveChatBot lib entry) = inr b) entries bs.

(** The log and constructor calls of constructing [entries] one after the
    other. *)
Definition traces (lib : discord_lib) (entries : list value) : list event :=
  concat ((λ entry, trace (LiveChatBot lib entry)) <$> entries).

(** A bot entry on which construction raises. *)
Definition is_invalid (lib : discord_lib) (entry : value) : bool :=
  match outcome (LiveChatBot lib entry) with
  | inl _ => true
  | inr _ => false
  end.

(** The positions of the invalid entries of a [bots] array. *)
Definition invalid_positions (lib : discord_lib) (entries : list value) : list nat :=
  (λ p : nat * value, p.1) <$>
    filter (λ p : nat * value, Is_true (is_invalid lib p.2)) (imap pair entries).

(** Loading the configuration file whose [bots] array is [entries]. *)
Definition load (lib : discord_lib) (entries : list value) : M manager :=
  DiscordBotManager lib
    (host_with "/srv/live_chat/configuration.json" (configuration_with entries))
    (Some "/srv/live_chat/configuration.json").

(** The aggregate error of the design: whenever some entry is invalid, load
    fails with an error from which [listing] reads every invalid entry. *)
Definition aggregate_error (lib : discord_lib) (listing : exn → list nat) : Prop :=
  ∀ entries, invalid_positions lib entries ≠ [] →
    ∃ e, outcome (load lib entries) = inl e
         ∧ listing e = invalid_positions lib entries.

(** The file the program reads: [configuration.json] in the directory given
    as first argument, or in the working directory when there is none. *)
Definition configuration_path (h : host) (argv : list string) : string :=
  let directory := match argv with
                   | _ :: directory :: _ => directory
                   | _ => cwd h
                   end in
  (if String.eqb directory "" || ends_with_sep directory then directory
   else directory ++ "/") ++ "configuration.json".

(** The configuration file is missing, unreadable, or not JSON. *)
Definition no_usable_configuration (h : host) (path : string) : Prop :=
  isfile h path = false
  ∨ access_R_OK h path = false
  ∨ ∃ f, fs h path = Some (Regular f) ∧ json_load h (content f) = None.

(** A host without any file. *)
Definition host_empty : host := {|
  fs := fun _ => None;
  json_load := fun _ => None;
  cwd := "/srv/live_chat"
|}.

(** ** Logging

    The loggers of the [logging] module, by name.  A logger has a level and a
    list of handlers; handlers are objects, compared by identity.  As in
    CPython, [removeHandler] takes the first occurrence of a handler out of
    the list when it is there, and [addHandler] appends a handler that is
    not there yet. *)

Definition INFO : Z := 20.
Definition NOTSET : Z := 0.

(** [LOG_LEVEL = logging.INFO] *)
Definition LOG_LEVEL : Z := INFO.

Section logging.

Context {handler : Type} `{EqDecision handler}.

(** The module's [log_stream_handler] and [log_file_handler]. *)
Context (log_stream_handler log_file_handler : handler).

Record logger : Type := { level : Z; handlers : list handler }.

(** [list.remove(x)] on a list that contains [x]. *)
Fixpoint list_remove_first (x : handler) (l : list handler) : list handler :=
  match l with
  | [] => []
  | y :: rest => if decide (x = y) then rest else y :: list_remove_first x rest
  end.

(** [logger.removeHandler(hdlr)], on the handlers of the logger. *)
Definition removeHandler (hdlr : handler) (l : list handler) : list handler :=
  if decide (hdlr ∈ l) then list_remove_first hdlr l else l.

(** [logger.addHandler(hdlr)], on the handlers of the logger. *)
Definition addHandler (hdlr : handler) (l : list handler) : list handler :=
  if decide (hdlr ∈ l) then l else (l ++ [hdlr])%list.

(** The loop [for handler in logger.handlers: logger.removeHandler(handler)].
    The iterator of a Python list is a position [i] in the list, read again
    at each step; the body shortens the very list that is iterated. *)
Equations? remove_handlers (i : nat) (l : list handler) : list handler
  by wf (length l - i) lt :=
  remove_handlers i l with inspect (l !! i) := {
    | exist _ (Some hdlr) Hi => remove_handlers (S i) (removeHandler hdlr l)
    | exist _ None _ => l }.
Proof.
  apply lookup_lt_Some in Hi.
  assert (length (removeHandler hdlr l) ≤ length l)%nat; [| lia].
  unfold removeHandler. case_decide; [| done].
  clear. induction l as [|y l IH]; simpl; [done |]. case_decide; simpl; lia.
Defined.

(** [logging.getLogger(name)]: the logger of that name, new when there is
    none yet. *)
Definition getLogger (name : string) (loggers : gmap string logger) : logger :=
  default {| level := NOTSET; handlers := [] |} (loggers !! name).

(** [configure_logger(logger_name)]: the loggers afterwards. *)
Definition configure_logger (logger_name : string) (loggers : gmap string logger)
    : gmap string logger :=
  let logger := getLogger logger_name loggers in
  let logger := {| level := LOG_LEVEL; handlers := handlers logger |} in
  let logger := {| level := level logger;
                   handlers := remove_handlers 0 (handlers logger) |} in
  let logger := {| level := level logger;
                   handlers := addHandler log_stream_handler (handlers logger) |} in
  let logger := {| level := level logger;
                   handlers := addHandler log_file_handler (handlers logger) |} in
  <[logger_name := logger]> loggers.

(** Every second element of a list, from the second on. *)
Fixpoint every_second (l : list handler) : list handler :=
  match l with
  | _ :: kept :: rest => kept :: every_second rest
  | _ => []
  end.

End logging.

(** ** More vocabulary *)

(** The log lines of [build_intents] for the flags [attrs] under the
    overrides [d], on an instance named [n]. *)
Definition intent_lines (n : value) (d : list (string * value))
    (attrs : list string) : list event :=
  (λ attr, LogInfo (IntentLine n attr (resolved d attr))) <$> attrs.

(** A value that is not a JSON object. *)
Definition not_an_object (v : value) : Prop := ∀ d, v ≠ VDict d.

(** A value without a length. *)
Definition unsized (v : value) : bool :=
  match v with
  | VBool _ | VInt _ | VFloat _ => true
  | _ => false
  end.

(** The [bots] entry of the configuration file is absent, null or empty. *)
Definition no_bots (top : list (string * value)) : Prop :=
  dict_lookup "bots" top = None
  ∨ dict_lookup "bots" top = Some VNone
  ∨ dict_lookup "bots" top = Some (VList [])
  ∨ dict_lookup "bots" top = Some (VDict [])
  ∨ dict_lookup "bots" top = Some (VStr "").

(** The manager built from the file [top] with the bots [bs]. *)
Definition manager_of (top : list (string * value)) (bs : list instance) : manager :=
  {| listen_address := get_or top "address" (VStr "0.0.0.0");
     listen_port := get_or top "port" (VInt 8080);
     bots := bs |}.

(** * Properties *)

(** A decidable proposition settled by evaluation. *)
Ltac by_compute := apply (bool_decide_unpack _); vm_compute; exact I.

(** ** The monad *)

Lemma outcome_bind {A B : Type} (m : M A) (f : A → M B) :
  outcome (m ≫= f) = match outcome m with
                     | inl e => inl e
                     | inr a => outcome (f a)
                     end.
Proof.
  unfold outcome, mbind, M_bind. destruct m as [t [e|a]]; [done |].
  simpl. by destruct (f a).
Qed.

Lemma trace_bind {A B : Type} (m : M A) (f : A → M B) :
  trace (m ≫= f) = (trace m ++ match outcome m with
                              | inl _ => []
                              | inr a => trace (f a)
                              end)%list.
Proof.
  unfold trace, outcome, mbind, M_bind.
  destruct m as [t [e|a]]; simpl; [by rewrite app_nil_r |].
  by destruct (f a).
Qed.

Lemma bind_ret_l {A B : Type} (a : A) (f : A → M B) : mret a ≫= f = f a.
Proof. unfold mbind, M_bind, mret, M_ret. simpl. by destruct (f a). Qed.

Lemma bind_raise {A B : Type} (e : exn) (f : A → M B) : raise e ≫= f = raise e.
Proof. done. Qed.

Lemma bind_ext {A B : Type} (m : M A) (f g : A → M B) :
  (∀ a, f a = g a) → m ≫= f = m ≫= g.
Proof.
  intros H. unfold mbind, M_bind. destruct m as [t [e|a]]; [done |].
  by rewrite H.
Qed.

Lemma M_eq {A : Type} (m1 m2 : M A) :
  trace m1 = trace m2 → outcome m1 = outcome m2 → m1 = m2.
Proof. destruct m1, m2. unfold trace, outcome. simpl. by intros -> ->. Qed.

(** ** Tables *)

Lemma INTENT_ATTRS_RECOGNIZED : INTENT_ATTRS = RECOGNIZED.
Proof. reflexivity. Qed.

Lemma dict_lookup_DEFAULT_INTENTS (name : string) :
  name ∈ RECOGNIZED →
  dict_lookup name DEFAULT_INTENTS = Some (VBool (bool_decide (name ∈ DEFAULT_TRUE))).
Proof.
  intros H. unfold RECOGNIZED in H. simpl in H.
  repeat (apply elem_of_cons in H as [-> | H]; [by vm_compute |]).
  by apply elem_of_nil in H.
Qed.

Lemma get_intent_dict (self : instance) (d : list (string * value))
    (name : string) (n : value) :
  self !! "name" = Some n → name ∈ RECOGNIZED →
  get_intent self (VDict d) (Some name)
  = ([LogInfo (IntentLine n name (resolved d name))], inr (resolved d name)).
Proof.
  intros Hn Hname. unfold get_intent, DEFAULT_INTENTS_getitem. cbn [eq_None].
  rewrite dict_lookup_DEFAULT_INTENTS by done.
  rewrite bind_ret_l. unfold py_get. rewrite bind_ret_l.
  unfold py_getattr. rewrite Hn, bind_ret_l.
  unfold resolved. by destruct (dict_lookup name d).
Qed.

(** ** get_intent *)

(** C2: the recognized flag names, the keys of [DEFAULT_INTENTS], are the
    twenty names written out below.  For every overrides mapping [d] and
    every one of these names, [get_intent] returns [d[name]] when [name] is a
    key of [d] and the default of the flag otherwise; the default, the entry
    of [DEFAULT_INTENTS], is [True] for exactly guild_messages, guilds,
    members, message_content and webhooks, and [False] for every other
    recognized flag. *)
Theorem get_intent_override_or_default (self : instance)
    (d : list (string * value)) (name : string) :
  is_Some (self !! "name") →
  name ∈ [ "auto_moderation"; "auto_moderation_configuration";
           "auto_moderation_execution"; "bans"; "dm_messages"; "dm_reactions";
           "dm_typing"; "emojis_and_stickers"; "guild_messages";
           "guild_reactions"; "guild_scheduled_events"; "guild_typing";
           "guilds"; "integrations"; "invites"; "members"; "message_content";
           "presences"; "voice_states"; "webhooks" ] →
  outcome (get_intent self (VDict d) (Some name))
  = inr (match dict_lookup name d with
         | Some v => v
         | None => VBool (bool_decide
                            (name ∈ [ "guild_messages"; "guilds"; "members";
                                      "message_content"; "webhooks" ]))
         end)
  ∧ dict_lookup name DEFAULT_INTENTS
    = Some (VBool (bool_decide
                     (name ∈ [ "guild_messages"; "guilds"; "members";
                               "message_content"; "webhooks" ])))
  ∧ DEFAULT_INTENTS.*1
    = [ "auto_moderation"; "auto_moderation_configuration";
           "auto_moderation_execution"; "bans"; "dm_messages"; "dm_reactions";
           "dm_typing"; "emojis_and_stickers"; "guild_messages";
           "guild_reactions"; "guild_scheduled_events"; "guild_typing";
           "guilds"; "integrations"; "invites"; "members"; "message_content";
           "presences"; "voice_states"; "webhooks" ].
Proof.
  intros [n Hn] Hname.
  assert (Hrec : name ∈ RECOGNIZED) by exact Hname.
  split; [| split].
  - by rewrite (get_intent_dict self d name n).
  - by apply dict_lookup_DEFAULT_INTENTS.
  - reflexivity.
Qed.

Lemma get_intent_override_or_default_witness :
  is_Some (named "live_chat" !! "name")
  ∧ outcome (get_intent (named "live_chat")
               (VDict [("guilds", VBool false)]) (Some "guilds"))
    = inr (VBool false)
  ∧ outcome (get_intent (named "live_chat")
               (VDict [("guilds", VBool false)]) (Some "guild_messages"))
    = inr (VBool true)
  ∧ outcome (get_intent (named "live_chat") (VDict []) (Some "guilds"))
    = inr (VBool true)
  ∧ outcome (get_intent (named "live_chat") (VDict []) (Some "members"))
    = inr (VBool true)
  ∧ outcome (get_intent (named "live_chat") (VDict []) (Some "message_content"))
    = inr (VBool true)
  ∧ outcome (get_intent (named "live_chat") (VDict []) (Some "webhooks"))
    = inr (VBool true)
  ∧ outcome (get_intent (named "live_chat") (VDict []) (Some "bans"))
    = inr (VBool false)
  ∧ outcome (get_intent (named "live_chat")
               (VDict [("bans", VBool true)]) (Some "bans"))
    = inr (VBool true).
Proof.
  assert (H1 : is_Some (named "live_chat" !! "name")) by (vm_compute; eauto).
  split; [exact H1 |].
  split; [exact (proj1 (get_intent_override_or_default (named "live_chat")
                   [("guilds", VBool false)] "guilds" H1 ltac:(by_compute))) |].
  split; [exact (proj1 (get_intent_override_or_default (named "live_chat")
                   [("guilds", VBool false)] "guild_messages" H1 ltac:(by_compute))) |].
  split; [exact (proj1 (get_intent_override_or_default (named "live_chat")
                   [] "guilds" H1 ltac:(by_compute))) |].
  split; [exact (proj1 (get_intent_override_or_default (named "live_chat")
                   [] "members" H1 ltac:(by_compute))) |].
  split; [exact (proj1 (get_intent_override_or_default (named "live_chat")
                   [] "message_content" H1 ltac:(by_compute))) |].
  split; [exact (proj1 (get_intent_override_or_default (named "live_chat")
                   [] "webhooks" H1 ltac:(by_compute))) |].
  split; [exact (proj1 (get_intent_override_or_default (named "live_chat")
                   [] "bans" H1 ltac:(by_compute))) |].
  exact (proj1 (get_intent_override_or_default (named "live_chat")
                   [("bans", VBool true)] "bans" H1 ltac:(by_compute))).
Defined.

(** ** build_intents *)

Lemma dict_lookup_Some_fst {A : Type} (key : string) (items : list (string * A)) (v : A) :
  dict_lookup key items = Some v → key ∈ items.*1.
Proof.
  induction items as [|[k w] items IH]; simpl; [done |].
  destruct (String.eqb_spec k key) as [-> | Hne].
  - intros _. apply list_elem_of_here.
  - intros H. apply list_elem_of_further. by apply IH.
Qed.

Lemma dict_lookup_recognized_only (name : string) (d : list (string * value)) :
  name ∈ RECOGNIZED → dict_lookup name (recognized_only d) = dict_lookup name d.
Proof.
  intros Hname. unfold recognized_only.
  induction d as [|[k v] d IH]; [done |].
  rewrite filter_cons. simpl. case_decide as Hk; simpl.
  - by rewrite IH.
  - destruct (String.eqb_spec k name) as [-> | Hne]; [done | exact IH].
Qed.

Lemma get_intent_recognized_only (self : instance) (d : list (string * value))
    (name : option string) :
  get_intent self (VDict (recognized_only d)) name = get_intent self (VDict d) name.
Proof.
  destruct name as [name|]; [| done].
  unfold get_intent, DEFAULT_INTENTS_getitem. cbn [eq_None].
  destruct (dict_lookup name DEFAULT_INTENTS) as [default|] eqn:Hdef; [| done].
  rewrite !bind_ret_l. unfold py_get.
  rewrite dict_lookup_recognized_only; [done |].
  by apply dict_lookup_Some_fst in Hdef.
Qed.

Lemma get_intent_trace (self : instance) (configuration : value) (name : string)
    (ev : event) :
  ev ∈ trace (get_intent self configuration (Some name)) →
  ∃ n v, ev = LogInfo (IntentLine n name v).
Proof.
  unfold get_intent, DEFAULT_INTENTS_getitem, py_getattr.
  destruct configuration as [| | | | | |d]; cbn [eq_None];
    try (intros H; by apply elem_of_nil in H).
  destruct (dict_lookup name DEFAULT_INTENTS) as [default|];
    [| intros H; by apply elem_of_nil in H].
  rewrite bind_ret_l. unfold py_get. rewrite bind_ret_l.
  destruct (self !! "name") as [n|]; [| intros H; by apply elem_of_nil in H].
  rewrite bind_ret_l. intros H. apply list_elem_of_singleton in H. eauto.
Qed.

Section build_intents.

Context (lib : discord_lib).

Lemma assign_intents_recognized_only self d attrs acc :
  assign_intents lib self (VDict (recognized_only d)) attrs acc
  = assign_intents lib self (VDict d) attrs acc.
Proof.
  revert acc. induction attrs as [|attr attrs IH]; intros acc; [done |].
  simpl. rewrite get_intent_recognized_only.
  apply bind_ext. intros v. by destruct (Intents_setattr lib acc attr v).
Qed.

Lemma assign_intents_trace self configuration attrs acc ev :
  ev ∈ trace (assign_intents lib self configuration attrs acc) →
  ∃ n attr v, ev = LogInfo (IntentLine n attr v) ∧ attr ∈ attrs.
Proof.
  revert acc. induction attrs as [|attr attrs IH]; intros acc; simpl.
  - intros H. by apply elem_of_nil in H.
  - rewrite trace_bind. intros [H | H]%elem_of_app.
    + apply get_intent_trace in H as (n & v & ->).
      exists n, attr, v. split; [done | apply list_elem_of_here].
    + destruct (outcome (get_intent self configuration (Some attr))) as [e|v];
        [by apply elem_of_nil in H |].
      destruct (Intents_setattr lib acc attr v); [by apply elem_of_nil in H |].
      apply IH in H as (n & a & w & -> & Ha).
      exists n, a, w. split; [done | by apply list_elem_of_further].
Qed.

Lemma assign_intents_attrs self configuration attrs acc i :
  outcome (assign_intents lib self configuration attrs acc) = inr i →
  i.*1 = (acc.*1 ++ attrs)%list.
Proof.
  revert acc. induction attrs as [|attr attrs IH]; intros acc; simpl.
  - intros [= <-]. by rewrite app_nil_r.
  - rewrite outcome_bind.
    destruct (outcome (get_intent self configuration (Some attr))) as [e|v];
      [done |].
    destruct (Intents_setattr lib acc attr v); [done |].
    intros H. apply IH in H. rewrite H, fmap_app. simpl.
    by rewrite <- app_assoc.
Qed.

Lemma assign_intents_dict self d attrs acc n :
  self !! "name" = Some n →
  (∀ attr, attr ∈ attrs → attr ∈ RECOGNIZED) →
  (∀ i attr, attr ∈ attrs → Intents_setattr lib i attr (resolved d attr) = None) →
  assign_intents lib self (VDict d) attrs acc
  = ((λ attr, LogInfo (IntentLine n attr (resolved d attr))) <$> attrs,
     inr (acc ++ ((λ attr, (attr, resolved d attr)) <$> attrs))%list).
Proof.
  intros Hn. revert acc.
  induction attrs as [|attr attrs IH]; intros acc Hrec Hset; simpl.
  - by rewrite app_nil_r.
  - rewrite (get_intent_dict self d attr n Hn)
      by (apply Hrec, list_elem_of_here).
    unfold mbind, M_bind. simpl.
    rewrite Hset by apply list_elem_of_here.
    rewrite IH.
    + simpl. by rewrite <- app_assoc.
    + intros a Ha. by apply Hrec, list_elem_of_further.
    + intros i a Ha. by apply Hset, list_elem_of_further.
Qed.

Lemma get_intent_no_ValueError self configuration attr msg :
  configuration ≠ VNone →
  outcome (get_intent self configuration (Some attr)) ≠ inl (ValueError msg).
Proof.
  intros Hcfg. unfold get_intent, DEFAULT_INTENTS_getitem, py_getattr.
  destruct configuration as [| | | | | |d]; cbn [eq_None]; try done.
  destruct (dict_lookup attr DEFAULT_INTENTS) as [default|]; [| done].
  rewrite bind_ret_l. unfold py_get. rewrite bind_ret_l.
  by destruct (self !! "name").
Qed.

Lemma assign_intents_no_ValueError self configuration attrs acc msg :
  configuration ≠ VNone →
  (∀ i attr v m, Intents_setattr lib i attr v ≠ Some (ValueError m)) →
  outcome (assign_intents lib self configuration attrs acc) ≠ inl (ValueError msg).
Proof.
  intros Hcfg Hlib. revert acc.
  induction attrs as [|attr attrs IH]; intros acc; simpl; [done |].
  rewrite outcome_bind.
  destruct (outcome (get_intent self configuration (Some attr))) as [e|v] eqn:Hget.
  - intros [= ->]. by eapply get_intent_no_ValueError.
  - destruct (Intents_setattr lib acc attr v) as [e|] eqn:Hset; [| apply IH].
    intros [= ->]. by eapply Hlib.
Qed.

Lemma build_intents_None self configuration r :
  outcome (build_intents lib self configuration) = inr r → r = None.
Proof.
  unfold build_intents. destruct (eq_None configuration); [done |].
  rewrite outcome_bind.
  destruct (outcome (assign_intents lib self configuration INTENT_ATTRS []));
    [done |].
  by intros [= <-].
Qed.

Lemma build_intents_trace self configuration ev :
  ev ∈ trace (build_intents lib self configuration) →
  ∃ n attr v, ev = LogInfo (IntentLine n attr v) ∧ attr ∈ RECOGNIZED.
Proof.
  unfold build_intents. destruct (eq_None configuration).
  - intros H. by apply elem_of_nil in H.
  - rewrite trace_bind. intros [H | H]%elem_of_app.
    + by apply assign_intents_trace in H.
    + destruct (outcome (assign_intents lib self configuration INTENT_ATTRS []));
        by apply elem_of_nil in H.
Qed.

Lemma build_intents_recognized_only self d :
  build_intents lib self (VDict (recognized_only d))
  = build_intents lib self (VDict d).
Proof.
  unfold build_intents. cbn [eq_None].
  by rewrite assign_intents_recognized_only.
Qed.

End build_intents.

(** ** LiveChatBot *)

Section LiveChatBot_facts.

Context (lib : discord_lib).

Lemma LiveChatBot_rejected d :
  auth_accepted (get_or d "auth" (VStr "")) = false →
  LiveChatBot lib (VDict d)
  = raise (ValueError "No API authentication token was provided in the bot configuration.").
Proof.
  unfold auth_accepted, get_or, LiveChatBot. cbn [eq_None].
  unfold py_get. rewrite bind_ret_l.
  intros H. apply negb_false_iff in H. by rewrite H.
Qed.

Lemma LiveChatBot_accepted d :
  auth_accepted (get_or d "auth" (VStr "")) = true →
  LiveChatBot lib (VDict d)
  = intents ← build_intents lib (instance_of d)
                (get_or d "intents" (VDict DEFAULT_INTENTS));
    super_init lib intents;;
    emit (LogInfo (CreatedLine (get_or d "name" (VStr "live_chat"))));;
    mret (instance_of d).
Proof.
  unfold auth_accepted, get_or, LiveChatBot. cbn [eq_None].
  unfold py_get. rewrite bind_ret_l.
  intros H. apply negb_true_iff in H. rewrite H.
  rewrite !bind_ret_l. apply bind_ext. intros intents.
  apply bind_ext. intros _. unfold py_getattr, instance_of, get_or.
  rewrite lookup_insert_ne by done. rewrite lookup_insert_eq.
  by rewrite bind_ret_l.
Qed.

Lemma LiveChatBot_not_dict configuration :
  (∀ d, configuration ≠ VDict d) →
  ∃ e, LiveChatBot lib configuration = raise e.
Proof.
  intros H. destruct configuration; unfold LiveChatBot; cbn [eq_None py_get];
    try (eexists; by rewrite ?bind_raise).
  by destruct (H items).
Qed.

Lemma LiveChatBot_SuperInit configuration i :
  SuperInit i ∈ trace (LiveChatBot lib configuration) → i = None.
Proof.
  destruct configuration as [| | | | | |d].
  1-6: match goal with
       | |- context [LiveChatBot lib ?c] =>
           destruct (LiveChatBot_not_dict c) as [e ->]; [done |];
           intros H; by apply elem_of_nil in H
       end.
  destruct (auth_accepted (get_or d "auth" (VStr ""))) eqn:Hauth.
  - rewrite LiveChatBot_accepted by done. rewrite trace_bind.
    intros [H | H]%elem_of_app.
    + by apply build_intents_trace in H as (n & a & v & ? & _).
    + destruct (outcome (build_intents lib (instance_of d) _)) as [e|r] eqn:Hr;
        [by apply elem_of_nil in H |].
      apply build_intents_None in Hr as ->.
      revert H. unfold super_init. rewrite !trace_bind. simpl.
      destruct (Client_init lib None); simpl.
      * by intros [= <-]%list_elem_of_singleton.
      * rewrite !elem_of_cons. by intros [[= <-] | [[=] | H%elem_of_nil]].
  - rewrite LiveChatBot_rejected by done. intros H. by apply elem_of_nil in H.
Qed.

End LiveChatBot_facts.

(** C1: the code departs from the claim.  [build_intents] assigns the flags
    to a local object and then falls off its end, so a call never yields an
    intents object, and the only value [__init__] ever hands to the
    superclass constructor is [None]. *)
Theorem build_intents_result_dropped (lib : discord_lib) (self : instance)
    (configuration bot : value) :
  (∀ i, outcome (build_intents lib self configuration) ≠ inr (Some i))
  ∧ (∀ i, SuperInit i ∈ trace (LiveChatBot lib bot) → i = None).
Proof.
  split.
  - intros i H. by apply build_intents_None in H.
  - apply LiveChatBot_SuperInit.
Qed.

(** The failing input of C1: with [webhooks] overridden, the local object
    holds exactly the recognized flags, each with its override or default,
    yet the call returns [None] and the client is built without it. *)
Example build_intents_webhooks_off :
  outcome (assign_intents discord_py (instance_of bot_webhooks_off)
             (VDict [("webhooks", VBool false)]) INTENT_ATTRS [])
  = inr ((λ name, (name, resolved [("webhooks", VBool false)] name)) <$> RECOGNIZED)
  ∧ outcome (build_intents discord_py (instance_of bot_webhooks_off)
               (VDict [("webhooks", VBool false)])) = inr None
  ∧ SuperInit None ∈ trace (LiveChatBot discord_py (VDict bot_webhooks_off)).
Proof.
  split; [by vm_compute | split; [by vm_compute |]].
  apply (list_elem_of_lookup_2 _ 20). by vm_compute.
Qed.

(** ** Construction and the auth entry *)

Lemma auth_rejected_iff (d : list (string * value)) :
  auth_accepted (get_or d "auth" (VStr "")) = false ↔ auth_unusable d.
Proof.
  unfold auth_unusable, get_or, auth_accepted.
  destruct (dict_lookup "auth" d) as [[| | | |[|c s]| |]|]; simpl;
    (split; [try done; intros _; auto | by intros [H | [H | H]]]).
Qed.

Lemma get_or_intents_None (d : list (string * value)) :
  get_or d "intents" (VDict DEFAULT_INTENTS) = VNone ↔
  dict_lookup "intents" d = Some VNone.
Proof.
  unfold get_or. destruct (dict_lookup "intents" d); simpl;
    split; congruence.
Qed.

Section construction.

Context (lib : discord_lib).

Lemma LiveChatBot_raises_ValueError configuration :
  configuration = VNone
  ∨ (∃ d, configuration = VDict d
          ∧ (auth_unusable d ∨ dict_lookup "intents" d = Some VNone)) →
  ∃ msg, LiveChatBot lib configuration = raise (ValueError msg).
Proof.
  intros [-> | (d & -> & H)]; [by eexists |].
  destruct (auth_accepted (get_or d "auth" (VStr ""))) eqn:Hauth.
  - destruct H as [H | H]; [apply auth_rejected_iff in H; congruence |].
    rewrite LiveChatBot_accepted by done.
    apply get_or_intents_None in H. rewrite H. by eexists.
  - rewrite LiveChatBot_rejected by done. by eexists.
Qed.

Lemma LiveChatBot_ValueError_cases configuration msg :
  no_library_ValueError lib →
  outcome (LiveChatBot lib configuration) = inl (ValueError msg) →
  configuration = VNone
  ∨ (∃ d, configuration = VDict d
          ∧ (auth_unusable d ∨ dict_lookup "intents" d = Some VNone)).
Proof.
  intros [Hset Hinit].
  destruct configuration as [| | | | | |d]; try done; [by left |].
  intros H. right. exists d. split; [done |].
  destruct (auth_accepted (get_or d "auth" (VStr ""))) eqn:Hauth;
    [| left; by apply auth_rejected_iff].
  right. apply get_or_intents_None.
  revert H. rewrite LiveChatBot_accepted by done.
  rewrite outcome_bind. unfold build_intents.
  destruct (get_or d "intents" (VDict DEFAULT_INTENTS)) as [| | | | | |ov] eqn:Hcfg;
    [done | | | | | |]; cbn [eq_None]; rewrite outcome_bind;
    (match goal with
     | |- context [assign_intents lib ?s ?c ?a ?i] =>
         pose proof (λ m, assign_intents_no_ValueError lib s c a i m
                            ltac:(done) Hset) as Hassign;
         destruct (outcome (assign_intents lib s c a i)) as [e|r]
     end);
    try (intros [= ->]; by destruct (Hassign msg));
    simpl; unfold super_init; rewrite !outcome_bind; simpl;
    (destruct (Client_init lib None) as [e|] eqn:Hc; simpl;
     [intros [= ->]; by destruct (Hinit None msg) | done]).
Qed.

End construction.

(** C3, as the code has it: construction raises [ValueError], the program's
    configuration error, exactly when the configuration is [None], or its
    [auth] entry is absent, null or the empty string, or its [intents] entry
    is present and null (the discord library raising no [ValueError] of its
    own); in each of these cases nothing has been logged and the superclass
    constructor has not been called, so no session object exists. *)
Theorem LiveChatBot_ValueError_iff (lib : discord_lib) (configuration : value) :
  no_library_ValueError lib →
  (fails_with_ValueError lib configuration ↔
     configuration = VNone
     ∨ (∃ d, configuration = VDict d
             ∧ (auth_unusable d ∨ dict_lookup "intents" d = Some VNone)))
  ∧ (fails_with_ValueError lib configuration →
     trace (LiveChatBot lib configuration) = []).
Proof.
  intros Hlib.
  assert (Hcases : fails_with_ValueError lib configuration →
            ∃ msg, LiveChatBot lib configuration = raise (ValueError msg)).
  { intros [msg H]. eapply LiveChatBot_raises_ValueError,
      LiveChatBot_ValueError_cases; eauto. }
  split; [split |].
  - intros [msg H]. by eapply LiveChatBot_ValueError_cases.
  - intros H. destruct (LiveChatBot_raises_ValueError lib configuration H)
      as [msg Hmsg].
    exists msg. by rewrite Hmsg.
  - intros H. destruct (Hcases H) as [msg ->]. done.
Qed.

Lemma discord_py_no_ValueError : no_library_ValueError discord_py.
Proof. split; [intros i attr v msg; by destruct v | done]. Defined.

Lemma LiveChatBot_ValueError_iff_witness :
  no_library_ValueError discord_py
  ∧ fails_with_ValueError discord_py (VDict [("name", VStr "relay")])
  ∧ trace (LiveChatBot discord_py (VDict [("name", VStr "relay")])) = [].
Proof.
  pose proof (LiveChatBot_ValueError_iff discord_py
                (VDict [("name", VStr "relay")]) discord_py_no_ValueError)
    as [Hiff Htrace].
  assert (H : fails_with_ValueError discord_py (VDict [("name", VStr "relay")])).
  { apply Hiff. right. eexists. split; [reflexivity |].
    left. left. reflexivity. }
  split; [exact discord_py_no_ValueError | split; [exact H | exact (Htrace H)]].
Defined.

(** C3 as stated fails: a configuration whose [auth] is a non-empty string
    but whose [intents] entry is null is rejected with a [ValueError] by the
    guard of [build_intents]. *)
Lemma LiveChatBot_ValueError_despite_auth :
  ¬ (fails_with_ValueError discord_py (VDict bot_named_null_intents) ↔
       VDict bot_named_null_intents = VNone
       ∨ (∃ d, VDict bot_named_null_intents = VDict d ∧ auth_absent_or_empty d)).
Proof.
  intros [H _].
  destruct H as [H | (d & [= <-] & [H | H])]; [| done | done | done].
  exists "configuration is null.". by vm_compute.
Qed.

(** ** Construction and the name entries *)

Lemma bool_overrides_resolved (ov : list (string * value)) (name : string) :
  bool_overrides ov → name ∈ RECOGNIZED → ∃ b, resolved ov name = VBool b.
Proof.
  intros Hov Hname. unfold resolved.
  destruct (dict_lookup name ov) as [v|] eqn:Hv; [by eapply Hov | by eexists].
Qed.

Lemma bool_overrides_DEFAULT_INTENTS : bool_overrides DEFAULT_INTENTS.
Proof.
  intros name v Hname Hv.
  rewrite dict_lookup_DEFAULT_INTENTS in Hv by done.
  injection Hv as <-. by eexists.
Qed.

Lemma build_intents_bool_overrides (lib : discord_lib) (self : instance)
    (ov : list (string * value)) :
  library_accepts lib → is_Some (self !! "name") → bool_overrides ov →
  outcome (build_intents lib self (VDict ov)) = inr None.
Proof.
  intros [Hset _] [n Hn] Hov. unfold build_intents. cbn [eq_None].
  rewrite outcome_bind, (assign_intents_dict lib self ov INTENT_ATTRS [] n Hn);
    [done | by rewrite INTENT_ATTRS_RECOGNIZED |].
  intros i attr Hattr. rewrite INTENT_ATTRS_RECOGNIZED in Hattr.
  destruct (bool_overrides_resolved ov attr Hov Hattr) as [b ->]. apply Hset.
Qed.

(** C4, as the code has it: for every configuration with a non-empty [auth]
    entry whose [intents] entry is absent or a mapping that gives booleans to
    the recognized flags, construction succeeds whether or not [name] and
    [display_name] are present; the instance has the configured [name], or
    "live_chat" when it is absent, and the configured [display_name], or
    "Live Chat" when it is absent. *)
Theorem LiveChatBot_name_defaults (lib : discord_lib) (d : list (string * value))
    (auth : value) :
  library_accepts lib →
  dict_lookup "auth" d = Some auth → auth_accepted auth = true →
  intents_well_formed d →
  ∃ self, outcome (LiveChatBot lib (VDict d)) = inr self
    ∧ self !! "name" = Some (match dict_lookup "name" d with
                             | Some v => v
                             | None => VStr "live_chat"
                             end)
    ∧ self !! "display_name" = Some (match dict_lookup "display_name" d with
                                     | Some v => v
                                     | None => VStr "Live Chat"
                                     end).
Proof.
  intros Hlib Hauth Hacc Hintents. exists (instance_of d). split; [| split].
  - rewrite LiveChatBot_accepted by (unfold get_or; by rewrite Hauth).
    assert (∃ ov, get_or d "intents" (VDict DEFAULT_INTENTS) = VDict ov
                  ∧ bool_overrides ov) as (ov & -> & Hov).
    { unfold get_or. destruct Hintents as [-> | (ov & -> & Hov)].
      - exists DEFAULT_INTENTS. split; [done | apply bool_overrides_DEFAULT_INTENTS].
      - by exists ov. }
    rewrite outcome_bind, build_intents_bool_overrides; [| done | | done].
    + unfold super_init. rewrite !outcome_bind. simpl.
      by rewrite (proj2 Hlib).
    + unfold instance_of. rewrite lookup_insert_ne by done.
      rewrite lookup_insert_eq. by eexists.
  - unfold instance_of, get_or. rewrite lookup_insert_ne by done.
    rewrite lookup_insert_eq. by destruct (dict_lookup "name" d).
  - unfold instance_of, get_or. rewrite lookup_insert_eq.
    by destruct (dict_lookup "display_name" d).
Qed.

Lemma discord_py_accepts : library_accepts discord_py.
Proof. by split. Defined.

Lemma LiveChatBot_name_defaults_witness :
  library_accepts discord_py
  ∧ dict_lookup "auth" bot_minimal = Some (VStr "token")
  ∧ auth_accepted (VStr "token") = true
  ∧ intents_well_formed bot_minimal
  ∧ ∃ self, outcome (LiveChatBot discord_py (VDict bot_minimal)) = inr self
      ∧ self !! "name" = Some (VStr "live_chat")
      ∧ self !! "display_name" = Some (VStr "Live Chat").
Proof.
  assert (H : intents_well_formed bot_minimal) by (left; reflexivity).
  split; [exact discord_py_accepts |].
  split; [reflexivity |]. split; [reflexivity |]. split; [exact H |].
  exact (LiveChatBot_name_defaults discord_py bot_minimal (VStr "token")
           discord_py_accepts eq_refl eq_refl H).
Defined.

(** C4 as stated fails: the [auth] entry is a non-empty string, yet
    construction ends with an error because the [intents] entry is null. *)
Lemma LiveChatBot_fails_despite_auth :
  dict_lookup "auth" bot_null_intents = Some (VStr "token")
  ∧ auth_accepted (VStr "token") = true
  ∧ ¬ constructs discord_py (VDict bot_null_intents).
Proof.
  split; [reflexivity | split; [reflexivity |]].
  intros [self H]. vm_compute in H. discriminate H.
Qed.

(** ** What construction keeps of the configuration *)

Lemma dict_lookup_dict_set_ne (key k : string) (v : value) (d : list (string * value)) :
  k ≠ key → dict_lookup k (dict_set key v d) = dict_lookup k d.
Proof.
  intros Hne. induction d as [|[k' w] d IH]; simpl.
  - destruct (String.eqb_spec key k); [congruence | done].
  - destruct (String.eqb_spec k' key) as [-> | Hk']; simpl.
    + destruct (String.eqb_spec key k); [congruence | done].
    + destruct (String.eqb_spec k' k); [done | exact IH].
Qed.

Lemma dict_lookup_dict_set_eq (key : string) (v : value) (d : list (string * value)) :
  dict_lookup key (dict_set key v d) = Some v.
Proof.
  induction d as [|[k' w] d IH]; simpl.
  - by rewrite String.eqb_refl.
  - destruct (String.eqb_spec k' key) as [-> | Hk']; simpl.
    + by rewrite String.eqb_refl.
    + destruct (String.eqb_spec k' key); [congruence | exact IH].
Qed.

Lemma instance_of_dict_set_auth (v : value) (d : list (string * value)) :
  instance_of (dict_set "auth" v d) = instance_of d.
Proof.
  unfold instance_of, get_or. by rewrite !dict_lookup_dict_set_ne.
Qed.

Lemma LiveChatBot_returns (lib : discord_lib) (configuration : value) (self : instance) :
  outcome (LiveChatBot lib configuration) = inr self →
  ∃ d, configuration = VDict d
       ∧ auth_accepted (get_or d "auth" (VStr "")) = true
       ∧ self = instance_of d.
Proof.
  destruct configuration as [| | | | | |d]; try done.
  destruct (auth_accepted (get_or d "auth" (VStr ""))) eqn:Hauth.
  - rewrite LiveChatBot_accepted by done. intros H. exists d.
    split; [done | split; [done |]]. revert H.
    rewrite outcome_bind. destruct (outcome (build_intents _ _ _)); [done |].
    unfold super_init. rewrite !outcome_bind. simpl.
    destruct (Client_init lib o); simpl; [done |]. by intros [= <-].
  - by rewrite LiveChatBot_rejected.
Qed.

(** C10: on every configuration on which construction succeeds, the instance
    holds the attributes [name] and [display_name] and nothing else (no auth
    or token attribute), the superclass constructor receives [None] and never
    the token, and the run is the same, logs included, for any other accepted
    value of [auth]: the token is checked and then dropped. *)
Theorem LiveChatBot_discards_auth (lib : discord_lib) (configuration : value)
    (self : instance) :
  outcome (LiveChatBot lib configuration) = inr self →
  ∃ d, configuration = VDict d
    ∧ dom self = {[ "name"; "display_name" ]}
    ∧ self !! "name" = Some (get_or d "name" (VStr "live_chat"))
    ∧ self !! "display_name" = Some (get_or d "display_name" (VStr "Live Chat"))
    ∧ (∀ i, SuperInit i ∈ trace (LiveChatBot lib configuration) → i = None)
    ∧ (∀ auth', auth_accepted auth' = true →
         LiveChatBot lib (VDict (dict_set "auth" auth' d))
         = LiveChatBot lib configuration).
Proof.
  intros H. apply LiveChatBot_returns in H as (d & -> & Hauth & ->).
  exists d. split; [done |]. split; [| split; [| split; [| split]]].
  - unfold instance_of. rewrite !dom_insert_L, dom_empty_L. set_solver.
  - unfold instance_of. rewrite lookup_insert_ne by done.
    by rewrite lookup_insert_eq.
  - unfold instance_of. by rewrite lookup_insert_eq.
  - apply LiveChatBot_SuperInit.
  - intros auth' Hauth'. rewrite !LiveChatBot_accepted; [| done |].
    + rewrite instance_of_dict_set_auth. unfold get_or.
      by rewrite !dict_lookup_dict_set_ne.
    + unfold get_or. by rewrite dict_lookup_dict_set_eq.
Qed.

Lemma LiveChatBot_discards_auth_witness :
  outcome (LiveChatBot discord_py (VDict bot_webhooks_off))
  = inr (instance_of bot_webhooks_off)
  ∧ dom (instance_of bot_webhooks_off) = {[ "name"; "display_name" ]}
  ∧ LiveChatBot discord_py (VDict (dict_set "auth" (VStr "other") bot_webhooks_off))
    = LiveChatBot discord_py (VDict bot_webhooks_off).
Proof.
  assert (H : outcome (LiveChatBot discord_py (VDict bot_webhooks_off))
              = inr (instance_of bot_webhooks_off)) by (vm_compute; reflexivity).
  split; [exact H |].
  destruct (LiveChatBot_discards_auth discord_py (VDict bot_webhooks_off)
              (instance_of bot_webhooks_off) H)
    as (d & Hd & Hdom & _ & _ & _ & Hsame).
  injection Hd as <-.
  split; [exact Hdom | exact (Hsame (VStr "other") eq_refl)].
Defined.

(** ** Unrecognized flag names *)

(** C5, as the code has it: names outside the recognized set are neither
    rejected nor reported.  Resolution runs exactly as on the overrides
    without them (same log lines, same outcome), every log line is about a
    recognized flag, and the flags assigned are exactly the recognized ones:
    no flag is created from an unrecognized name. *)
Theorem build_intents_ignores_unrecognized (lib : discord_lib) (self : instance)
    (d : list (string * value)) :
  build_intents lib self (VDict d) = build_intents lib self (VDict (recognized_only d))
  ∧ (∀ ev name, ev ∈ trace (build_intents lib self (VDict d)) →
       reports name ev → name ∈ RECOGNIZED)
  ∧ (∀ i, outcome (assign_intents lib self (VDict d) INTENT_ATTRS []) = inr i →
       i.*1 = RECOGNIZED).
Proof.
  split; [by rewrite build_intents_recognized_only | split].
  - intros ev name Hev (n & v & ->).
    apply build_intents_trace in Hev as (n' & attr & v' & [= -> -> ->] & Hattr).
    done.
  - intros i H. by apply assign_intents_attrs in H.
Qed.

(** C5 as stated fails: with the unrecognized name [bogus] among the
    overrides, resolution neither fails nor logs anything about it; it runs
    as it does without overrides. *)
Lemma build_intents_silent_on_bogus :
  ¬ strict_or_lenient discord_py (named "live_chat") [("bogus", VBool true)]
  ∧ build_intents discord_py (named "live_chat") (VDict [("bogus", VBool true)])
    = build_intents discord_py (named "live_chat") (VDict []).
Proof.
  split; [| by vm_compute].
  intros H. destruct (H "bogus") as [[msg Hmsg] | (ev & Hev & Hreports)].
  - by_compute.
  - by_compute.
  - vm_compute in Hmsg. discriminate Hmsg.
  - destruct Hreports as (n & v & ->).
    apply build_intents_trace in Hev as (n' & attr & v' & [= _ <- _] & Hattr).
    revert Hattr. by_compute.
Qed.

(** ** DiscordBotManager *)

Section manager_facts.

Context (lib : discord_lib).

Lemma append_bots_construct_to entries bs acc :
  construct_to lib entries bs →
  append_bots lib entries acc = (traces lib entries, inr (acc ++ bs)%list).
Proof.
  intros H. revert acc.
  induction H as [|entry b entries bs Hb _ IH]; intros acc; simpl.
  - by rewrite app_nil_r.
  - apply M_eq.
    + rewrite trace_bind, Hb, IH. done.
    + rewrite outcome_bind, Hb, IH. unfold outcome. simpl.
      by rewrite <- app_assoc.
Qed.

Lemma append_bots_first_invalid pre bad post bs e acc :
  construct_to lib pre bs →
  outcome (LiveChatBot lib bad) = inl e →
  append_bots lib (pre ++ bad :: post) acc
  = ((traces lib pre ++ trace (LiveChatBot lib bad))%list, inl e).
Proof.
  intros H Hbad. revert acc.
  induction H as [|entry b entries bs Hb _ IH]; intros acc; simpl.
  - apply M_eq.
    + by rewrite trace_bind, Hbad, app_nil_r.
    + by rewrite outcome_bind, Hbad.
  - apply M_eq.
    + rewrite trace_bind, Hb, IH. unfold traces. simpl.
      by rewrite <- app_assoc.
    + by rewrite outcome_bind, Hb, IH.
Qed.

Lemma DiscordBotManager_loads h path top entries :
  loads h path top → dict_lookup "bots" top = Some (VList entries) →
  DiscordBotManager lib h (Some path)
  = bots ← append_bots lib entries [];
    emit (LogInfo (ManagerLine (length bots)));;
    mret {| listen_address := get_or top "address" (VStr "0.0.0.0");
            listen_port := get_or top "port" (VInt 8080);
            bots := bots |}.
Proof.
  intros (f & Hfs & Hread & Hjson) Hbots.
  unfold DiscordBotManager, isfile, access_R_OK.
  rewrite Hfs, Hread, Hjson. cbn [negb]. unfold py_get. rewrite !bind_ret_l.
  rewrite Hbots. cbn [from_option id eq_None negb py_len]. rewrite bind_ret_l.
  destruct entries as [|entry entries]; [done |].
  cbn [length Nat.ltb Nat.leb py_iter]. by rewrite bind_ret_l.
Qed.

End manager_facts.

(** C6, as the code has it: load stops at the first invalid entry of the
    bots array.  When the entries before it construct and it raises [e],
    load fails with that same [e]; the entries after it are never examined,
    so neither the error nor the log says anything about them. *)
Theorem DiscordBotManager_first_invalid (lib : discord_lib) (h : host)
    (path : string) (top : list (string * value)) (pre post : list value)
    (bad : value) (bs : list instance) (e : exn) :
  loads h path top →
  dict_lookup "bots" top = Some (VList (pre ++ bad :: post)) →
  construct_to lib pre bs →
  outcome (LiveChatBot lib bad) = inl e →
  DiscordBotManager lib h (Some path)
  = ((traces lib pre ++ trace (LiveChatBot lib bad))%list, inl e).
Proof.
  intros Hloads Hbots Hpre Hbad.
  rewrite (DiscordBotManager_loads lib h path top _ Hloads Hbots).
  by rewrite (append_bots_first_invalid lib pre bad post bs e [] Hpre Hbad).
Qed.

Lemma load_loads (entries : list value) :
  loads (host_with "/srv/live_chat/configuration.json" (configuration_with entries))
    "/srv/live_chat/configuration.json"
    [ ("address", VStr "127.0.0.1"); ("port", VInt 8080); ("bots", VList entries) ].
Proof. eexists. split; [reflexivity | split; reflexivity]. Defined.

Lemma DiscordBotManager_first_invalid_witness :
  construct_to discord_py [VDict bot_minimal] [instance_of bot_minimal]
  ∧ outcome (LiveChatBot discord_py (VDict []))
    = inl (ValueError "No API authentication token was provided in the bot configuration.")
  ∧ load discord_py [VDict bot_minimal; VDict []; VDict [("name", VStr "relay")]]
    = ((traces discord_py [VDict bot_minimal]
        ++ trace (LiveChatBot discord_py (VDict [])))%list,
       inl (ValueError "No API authentication token was provided in the bot configuration.")).
Proof.
  assert (H1 : construct_to discord_py [VDict bot_minimal] [instance_of bot_minimal]).
  { constructor; [vm_compute; reflexivity | constructor]. }
  split; [exact H1 | split; [reflexivity |]].
  exact (DiscordBotManager_first_invalid discord_py _ _ _
           [VDict bot_minimal] [VDict [("name", VStr "relay")]] (VDict []) _ _
           (load_loads _) eq_refl H1 eq_refl).
Defined.

(** C6 as stated fails: two bots arrays with the same first invalid entry
    fail with the same error, although one has one invalid entry and the
    other two; no reading of the error lists every invalid entry. *)
Lemma DiscordBotManager_no_aggregate_error :
  ¬ ∃ listing, aggregate_error discord_py listing.
Proof.
  intros [listing H].
  destruct (H [VDict []; VDict bot_minimal]) as (e1 & He1 & Hl1);
    [by vm_compute |].
  destruct (H [VDict []; VDict []]) as (e2 & He2 & Hl2); [by vm_compute |].
  vm_compute in He1, He2. injection He1 as <-. injection He2 as <-.
  rewrite Hl1 in Hl2. vm_compute in Hl2. discriminate Hl2.
Qed.

(** C7, as the code has it: load does not compare bot names.  Whenever each
    entry of the bots array constructs, load succeeds and the manager holds
    one bot per entry, in the order of the array, whatever their names. *)
Theorem DiscordBotManager_keeps_every_bot (lib : discord_lib) (h : host)
    (path : string) (top : list (string * value)) (entries : list value)
    (bs : list instance) :
  loads h path top →
  dict_lookup "bots" top = Some (VList entries) →
  construct_to lib entries bs →
  outcome (DiscordBotManager lib h (Some path))
  = inr {| listen_address := get_or top "address" (VStr "0.0.0.0");
           listen_port := get_or top "port" (VInt 8080);
           bots := bs |}.
Proof.
  intros Hloads Hbots Hentries.
  rewrite (DiscordBotManager_loads lib h path top _ Hloads Hbots).
  rewrite outcome_bind, (append_bots_construct_to lib entries bs [] Hentries).
  reflexivity.
Qed.

Lemma DiscordBotManager_keeps_every_bot_witness :
  construct_to discord_py [VDict bot_webhooks_off; VDict bot_webhooks_off]
    [instance_of bot_webhooks_off; instance_of bot_webhooks_off]
  ∧ outcome (load discord_py [VDict bot_webhooks_off; VDict bot_webhooks_off])
    = inr {| listen_address := VStr "127.0.0.1";
             listen_port := VInt 8080;
             bots := [instance_of bot_webhooks_off; instance_of bot_webhooks_off] |}.
Proof.
  assert (H1 : construct_to discord_py [VDict bot_webhooks_off; VDict bot_webhooks_off]
                 [instance_of bot_webhooks_off; instance_of bot_webhooks_off]).
  { repeat (constructor; [vm_compute; reflexivity |]). constructor. }
  split; [exact H1 |].
  exact (DiscordBotManager_keeps_every_bot discord_py _ _ _ _ _
           (load_loads _) eq_refl H1).
Defined.

(** C7 as stated fails: two entries that both omit [name] are loaded, and
    the manager holds two bots named live_chat. *)
Lemma DiscordBotManager_duplicate_names :
  ∃ m, outcome (load discord_py [VDict bot_minimal; VDict [("auth", VStr "second")]])
       = inr m
       ∧ bot_names m = [Some (VStr "live_chat"); Some (VStr "live_chat")].
Proof. eexists. split; [by vm_compute | by vm_compute]. Qed.

(** ** Program entry *)

Lemma append_cons (c : Ascii.ascii) (s t : string) :
  String c s ++ t = String c (s ++ t).
Proof. reflexivity. Qed.

Lemma append_empty_r (s : string) : s ++ "" = s.
Proof. induction s as [|c s IH]; [done |]. by rewrite append_cons, IH. Qed.

Lemma ends_with_sep_append_sep (s : string) : ends_with_sep (s ++ "/") = true.
Proof.
  induction s as [|c s IH]; [done |].
  rewrite append_cons. simpl. destruct (s ++ "/") eqn:Hs; [| exact IH].
  by destruct s.
Qed.

Lemma os_path_join_configuration (directory : string) :
  os_path_join (os_path_join directory "") "configuration.json"
  = (if String.eqb directory "" || ends_with_sep directory then directory
     else directory ++ "/") ++ "configuration.json".
Proof.
  unfold os_path_join. cbn [String.prefix].
  destruct (String.eqb directory "" || ends_with_sep directory) eqn:Hdir.
  - by rewrite append_empty_r, Hdir.
  - cbn [String.prefix]. rewrite append_empty_r.
    by rewrite ends_with_sep_append_sep, orb_true_r.
Qed.

Lemma main_configuration_path (lib : discord_lib) (h : host) (argv : list string) :
  main lib h argv = DiscordBotManager lib h (Some (configuration_path h argv)).
Proof.
  unfold main, configuration_path. rewrite os_path_join_configuration.
  by destruct argv as [|prog [|directory rest]].
Qed.

(** C8: the program reads [configuration.json] in the directory given as its
    first argument (further arguments are not looked at), or in the working
    directory when there is none; when that file is missing, unreadable or
    not JSON, the program ends with a raised error, nothing logged and no
    manager constructed. *)
Theorem main_requires_configuration_file (lib : discord_lib) (h : host)
    (argv : list string) :
  no_usable_configuration h (configuration_path h argv) →
  ∃ e, main lib h argv = raise e
       ∧ (e = IOError "configuration_path is not a file."
          ∨ e = IOError "configuration_path is not readable."
          ∨ e = JSONDecodeError).
Proof.
  rewrite main_configuration_path.
  generalize (configuration_path h argv). intros path.
  unfold no_usable_configuration, DiscordBotManager, isfile, access_R_OK.
  intros [H | [H | (f & Hf & Hjson)]].
  - destruct (fs h path) as [[|f]|]; [| done |]; eauto.
  - destruct (fs h path) as [[|f]|]; [by eauto | | by eauto].
    simpl in *. rewrite H. eauto.
  - rewrite Hf. simpl. destruct (readable f); simpl; [| by eauto].
    rewrite Hjson. eauto 6.
Qed.

Lemma main_requires_configuration_file_witness :
  no_usable_configuration host_empty
    (configuration_path host_empty ["live_chat.py"; "/etc/live_chat"; "extra"])
  ∧ ∃ e, main discord_py host_empty ["live_chat.py"; "/etc/live_chat"; "extra"]
         = raise e
         ∧ (e = IOError "configuration_path is not a file."
            ∨ e = IOError "configuration_path is not readable."
            ∨ e = JSONDecodeError).
Proof.
  assert (H : no_usable_configuration host_empty
                (configuration_path host_empty
                   ["live_chat.py"; "/etc/live_chat"; "extra"]))
    by (left; reflexivity).
  split; [exact H |].
  exact (main_requires_configuration_file discord_py host_empty _ H).
Defined.

(** The path of the configuration file on three command lines. *)
Example configuration_path_examples :
  configuration_path host_empty ["live_chat.py"]
  = "/srv/live_chat/configuration.json"
  ∧ configuration_path host_empty ["live_chat.py"; "/etc/live_chat"; "extra"]
    = "/etc/live_chat/configuration.json"
  ∧ configuration_path host_empty ["live_chat.py"; "conf/"]
    = "conf/configuration.json".
Proof. by vm_compute. Qed.

(** ** The session state machine *)

Section session.

Import ChatBridgeSession.

Lemma step_into_Connecting a e : step a e = Some Connecting → a = Disconnected.
Proof. by destruct a, e. Qed.

Lemma step_into_Connected a e :
  step a e = Some Connected → a = Connecting ∨ ∃ r, a = Degraded r.
Proof. destruct a, e; try done; eauto. Qed.

Lemma step_into_Degraded a e r : step a e = Some (Degraded r) → a = Connected.
Proof. by destruct a, e. Qed.

(** Consecutive states of a run are linked by a transition. *)
Lemma run_adjacent signals s i a b :
  (s :: run s signals) !! i = Some a →
  (s :: run s signals) !! S i = Some b →
  ∃ e, step a e = Some b.
Proof.
  revert s i. induction signals as [|e signals IH]; intros s i; simpl.
  - by destruct i.
  - destruct (step s e) as [s'|] eqn:Hstep; [| apply IH].
    destruct i as [|i]; simpl.
    + intros [= <-] [= <-]. eauto.
    + apply IH.
Qed.

(** A session that is connected or degraded has been connecting before. *)
Lemma history_connected_after_connecting signals i s :
  history signals !! i = Some s →
  s = Connected ∨ (∃ r, s = Degraded r) →
  ∃ j, j < i ∧ history signals !! j = Some Connecting.
Proof.
  revert s. induction i as [|i IH]; intros s Hi Hs.
  - injection Hi as <-. by destruct Hs as [? | [r ?]].
  - destruct (lookup_lt_is_Some_2 (history signals) i) as [a Ha].
    { apply lookup_lt_Some in Hi. lia. }
    destruct (run_adjacent signals Disconnected i a s Ha Hi) as [e He].
    destruct Hs as [-> | [r ->]].
    + apply step_into_Connected in He as [-> | [r ->]].
      * exists i. split; [lia | done].
      * destruct (IH _ Ha) as (j & Hj & Hc); [by eauto |].
        exists j. split; [lia | done].
    + apply step_into_Degraded in He as ->.
      destruct (IH _ Ha) as (j & Hj & Hc); [by left |].
      exists j. split; [lia | done].
Qed.

End session.

(** C9: in the history of a session, from [Disconnected] and through any
    sequence of signals, every [Connected] state comes after a [Connecting]
    state, and between two [Connecting] states there is a [Disconnected]
    state. *)
Theorem session_connection_order (signals : list ChatBridgeSession.signal) :
  (∀ i, ChatBridgeSession.history signals !! i = Some ChatBridgeSession.Connected →
     ∃ j, j < i
          ∧ ChatBridgeSession.history signals !! j = Some ChatBridgeSession.Connecting)
  ∧ (∀ i j, i < j →
       ChatBridgeSession.history signals !! i = Some ChatBridgeSession.Connecting →
       ChatBridgeSession.history signals !! j = Some ChatBridgeSession.Connecting →
       ∃ k, i < k < j
            ∧ ChatBridgeSession.history signals !! k
              = Some ChatBridgeSession.Disconnected).
Proof.
  split.
  - intros i Hi. eapply history_connected_after_connecting; [done | by left].
  - intros i j Hij Hi Hj. destruct j as [|j]; [lia |].
    destruct (lookup_lt_is_Some_2 (ChatBridgeSession.history signals) j) as [a Ha].
    { apply lookup_lt_Some in Hj. lia. }
    destruct (run_adjacent signals _ j a _ Ha Hj) as [e He].
    apply step_into_Connecting in He as ->.
    exists j. split; [| done].
    destruct (decide (i = j)) as [-> | Hne]; [congruence | lia].
Qed.

(** A drop and a reconnection, with signals that have no transition where
    they arrive. *)
Example session_reconnects :
  ChatBridgeSession.history
    [ ChatBridgeSession.HandshakeOk; ChatBridgeSession.Start;
      ChatBridgeSession.Start; ChatBridgeSession.HandshakeOk;
      ChatBridgeSession.TransientError "rate limit"; ChatBridgeSession.Recovery;
      ChatBridgeSession.ConnectionLoss; ChatBridgeSession.Start;
      ChatBridgeSession.HandshakeOk; ChatBridgeSession.Stop;
      ChatBridgeSession.Drained ]
  = [ ChatBridgeSession.Disconnected; ChatBridgeSession.Connecting;
      ChatBridgeSession.Connected; ChatBridgeSession.Degraded "rate limit";
      ChatBridgeSession.Connected; ChatBridgeSession.Disconnected;
      ChatBridgeSession.Connecting; ChatBridgeSession.Connected;
      ChatBridgeSession.ShuttingDown; ChatBridgeSession.Closed ].
Proof. reflexivity. Qed.

(** * Further properties of the code *)

(** ** get_intent: errors and log *)

Lemma dict_lookup_None_fst {A : Type} (key : string) (items : list (string * A)) :
  key ∉ items.*1 → dict_lookup key items = None.
Proof.
  intros H. destruct (dict_lookup key items) eqn:Hl; [| done].
  by apply dict_lookup_Some_fst in Hl.
Qed.

(** X1: a flag name that is not a key of [DEFAULT_INTENTS] cannot be read:
    on a mapping, [get_intent] raises [KeyError] for it, whether or not the
    mapping gives it a value, and logs nothing. *)
Theorem get_intent_unrecognized (self : instance) (d : list (string * value))
    (name : string) :
  name ∉ RECOGNIZED →
  get_intent self (VDict d) (Some name) = raise (KeyError name).
Proof.
  intros H. unfold get_intent, DEFAULT_INTENTS_getitem. cbn [eq_None].
  by rewrite dict_lookup_None_fst.
Qed.

Lemma get_intent_unrecognized_witness :
  ("emojis" ∉ RECOGNIZED)
  ∧ get_intent (named "live_chat") (VDict [("emojis", VBool true)]) (Some "emojis")
    = raise (KeyError "emojis").
Proof.
  assert (H : "emojis" ∉ RECOGNIZED) by by_compute.
  split; [exact H |].
  exact (get_intent_unrecognized (named "live_chat") [("emojis", VBool true)]
           "emojis" H).
Defined.

Lemma get_intent_logs_result_aux (self : instance) (configuration : value)
    (attr : string) :
  match outcome (get_intent self configuration (Some attr)) with
  | inr v => ∃ n, self !! "name" = Some n
  | inl _ => True
  end.
Proof.
  unfold get_intent, DEFAULT_INTENTS_getitem, py_getattr.
  destruct configuration as [| | | | | |d]; cbn [eq_None]; try done.
  destruct (dict_lookup attr DEFAULT_INTENTS) as [default|]; [| done].
  rewrite bind_ret_l. unfold py_get. rewrite bind_ret_l.
  destruct (self !! "name") as [n|]; [| done].
  rewrite bind_ret_l. simpl. eauto.
Qed.

(** X2: [get_intent] logs what it returns.  When it returns [v], exactly one
    line has been logged, for this instance and flag, and it reports [v];
    when it raises, nothing has been logged. *)
Theorem get_intent_logs_result (self : instance) (configuration : value)
    (intent_name : option string) :
  match outcome (get_intent self configuration intent_name) with
  | inr v => ∃ n attr, intent_name = Some attr ∧ self !! "name" = Some n
               ∧ trace (get_intent self configuration intent_name)
                 = [LogInfo (IntentLine n attr v)]
  | inl _ => trace (get_intent self configuration intent_name) = []
  end.
Proof.
  unfold get_intent, DEFAULT_INTENTS_getitem, py_getattr.
  destruct configuration as [| | | | | |d]; cbn [eq_None];
    try (by destruct intent_name).
  destruct intent_name as [attr|]; [| done].
  destruct (dict_lookup attr DEFAULT_INTENTS) as [default|]; [| done].
  rewrite bind_ret_l. unfold py_get. rewrite bind_ret_l.
  destruct (self !! "name") as [n|]; [| done].
  rewrite bind_ret_l. simpl. eauto.
Qed.

(** X3: the ways [get_intent] can fail, in the order it checks them: the
    configuration is [None]; else the flag name is [None]; else the
    configuration has no [get] method; else the name is not a key of
    [DEFAULT_INTENTS]; else the instance has no [name] yet. *)
Theorem get_intent_errors (self : instance) (configuration : value)
    (intent_name : option string) (e : exn) :
  outcome (get_intent self configuration intent_name) = inl e →
  (configuration = VNone ∧ e = ValueError "configuration is null.")
  ∨ (configuration ≠ VNone ∧ intent_name = None
     ∧ e = ValueError "intent_name is null.")
  ∨ (configuration ≠ VNone ∧ not_an_object configuration
     ∧ is_Some intent_name ∧ e = AttributeError "get")
  ∨ (∃ d attr, configuration = VDict d ∧ intent_name = Some attr
       ∧ (attr ∉ RECOGNIZED) ∧ e = KeyError attr)
  ∨ (∃ d attr, configuration = VDict d ∧ intent_name = Some attr
       ∧ attr ∈ RECOGNIZED ∧ self !! "name" = None ∧ e = AttributeError "name").
Proof.
  unfold get_intent, DEFAULT_INTENTS_getitem, py_getattr.
  destruct configuration as [| | | | | |d]; cbn [eq_None];
    try (destruct intent_name as [attr|]; intros [= <-];
         [right; right; left; by eauto | right; left; by eauto]).
  - intros [= <-]. by left.
  - destruct intent_name as [attr|]; [| intros [= <-]; right; left; by eauto].
    destruct (dict_lookup attr DEFAULT_INTENTS) as [default|] eqn:Hdef.
    + rewrite bind_ret_l. unfold py_get. rewrite bind_ret_l.
      destruct (self !! "name") as [n|] eqn:Hn; [by rewrite bind_ret_l |].
      intros [= <-]. do 4 right. exists d, attr.
      apply dict_lookup_Some_fst in Hdef. by eauto.
    + intros [= <-]. do 3 right. left. exists d, attr.
      split; [done | split; [done | split; [| done]]].
      intros Hin. apply dict_lookup_DEFAULT_INTENTS in Hin. congruence.
Qed.

Lemma get_intent_errors_witness :
  outcome (get_intent (named "live_chat") (VList []) (Some "guilds"))
  = inl (AttributeError "get")
  ∧ (VList [] ≠ VNone) ∧ not_an_object (VList []).
Proof.
  assert (H : outcome (get_intent (named "live_chat") (VList []) (Some "guilds"))
              = inl (AttributeError "get")) by reflexivity.
  split; [exact H |].
  destruct (get_intent_errors _ _ _ _ H)
    as [[Hc _] | [(_ & Hn & _) | [(Hc & Hobj & _) | [(d & a & Hc & _) | (d & a & Hc & _)]]]];
    [discriminate Hc | discriminate Hn | exact (conj Hc Hobj)
    | discriminate Hc | discriminate Hc].
Defined.

(** ** build_intents: log and failures *)

Section build_intents_log.

Context (lib : discord_lib).

Lemma assign_intents_returns self d attrs acc i :
  (∀ attr, attr ∈ attrs → attr ∈ RECOGNIZED) → attrs ≠ [] →
  outcome (assign_intents lib self (VDict d) attrs acc) = inr i →
  ∃ n, self !! "name" = Some n
       ∧ assign_intents lib self (VDict d) attrs acc
         = (intent_lines n d attrs,
            inr (acc ++ ((λ attr, (attr, resolved d attr)) <$> attrs))%list).
Proof.
  intros Hrec Hne Hi.
  destruct (self !! "name") as [n|] eqn:Hn.
  - exists n. split; [done |]. revert acc Hi. clear Hne.
    induction attrs as [|attr attrs IH]; intros acc; simpl.
    + intros _. by rewrite app_nil_r.
    + rewrite (get_intent_dict self d attr n Hn)
        by (apply Hrec, list_elem_of_here).
      rewrite outcome_bind. unfold outcome at 1. cbn [snd].
      unfold mbind, M_bind. cbn [fst snd].
      destruct (Intents_setattr lib acc attr (resolved d attr)); [done |].
      intros Hi. rewrite IH; [| | done].
      * unfold intent_lines. simpl. by rewrite <- app_assoc.
      * intros a Ha. by apply Hrec, list_elem_of_further.
  - destruct attrs as [|attr attrs]; [done |]. exfalso. revert Hi. simpl.
    rewrite outcome_bind.
    pose proof (get_intent_logs_result_aux self (VDict d) attr) as Haux.
    destruct (outcome (get_intent self (VDict d) (Some attr))); [done |].
    destruct Haux as (n & Hname). congruence.
Qed.

End build_intents_log.

(** X4: when [build_intents] returns on a configuration, the configuration is
    a mapping, the instance has a name, and the log holds one line per
    recognized flag, in the order of [DEFAULT_INTENTS], each with the value
    the flag resolves to (override or default); the value returned is
    [None]. *)
Theorem build_intents_log (lib : discord_lib) (self : instance)
    (configuration : value) (r : option intents_obj) :
  outcome (build_intents lib self configuration) = inr r →
  ∃ d n, configuration = VDict d ∧ self !! "name" = Some n
    ∧ build_intents lib self configuration = (intent_lines n d RECOGNIZED, inr None).
Proof.
  unfold build_intents.
  destruct configuration as [| | | | | |d]; cbn [eq_None]; try done.
  rewrite outcome_bind.
  destruct (outcome (assign_intents lib self (VDict d) INTENT_ATTRS []))
    as [e|i] eqn:Hi; [done |].
  intros _. apply assign_intents_returns in Hi as (n & Hn & Hrun);
    [| by rewrite INTENT_ATTRS_RECOGNIZED | done].
  exists d, n. split; [done | split; [done |]].
  by rewrite Hrun.
Qed.

Lemma build_intents_log_witness :
  outcome (build_intents discord_py (named "relay") (VDict [("guilds", VBool false)]))
  = inr None
  ∧ ∃ d n, VDict [("guilds", VBool false)] = VDict d
      ∧ named "relay" !! "name" = Some n
      ∧ build_intents discord_py (named "relay") (VDict [("guilds", VBool false)])
        = (intent_lines n d RECOGNIZED, inr None).
Proof.
  assert (H : outcome (build_intents discord_py (named "relay")
                         (VDict [("guilds", VBool false)])) = inr None)
    by (vm_compute; reflexivity).
  split; [exact H |].
  exact (build_intents_log discord_py _ _ _ H).
Defined.

(** X5: a configuration that is neither [None] nor a mapping (a list, a
    string, a number) makes [build_intents] raise [AttributeError] at the
    first flag: nothing is logged and nothing is assigned. *)
Theorem build_intents_not_a_mapping (lib : discord_lib) (self : instance)
    (configuration : value) :
  configuration ≠ VNone → not_an_object configuration →
  build_intents lib self configuration = raise (AttributeError "get").
Proof.
  intros Hnone Hobj. unfold build_intents.
  destruct configuration as [| | | | | |d]; try done.
  by destruct (Hobj d).
Qed.

Lemma build_intents_not_a_mapping_witness :
  (VList [VStr "guilds"] ≠ VNone) ∧ not_an_object (VList [VStr "guilds"])
  ∧ build_intents discord_py (named "relay") (VList [VStr "guilds"])
    = raise (AttributeError "get").
Proof.
  assert (H1 : VList [VStr "guilds"] ≠ VNone) by discriminate.
  assert (H2 : not_an_object (VList [VStr "guilds"])) by (intros d; discriminate).
  split; [exact H1 | split; [exact H2 |]].
  exact (build_intents_not_a_mapping discord_py (named "relay") _ H1 H2).
Defined.

(** X6: [build_intents] stops at the first flag whose value the library
    refuses.  The flags before it have been logged and assigned, the refused
    value has been logged too (the line is written before the assignment),
    and no later flag is looked at; the library's error is the result. *)
Theorem build_intents_refused_value (lib : discord_lib) (self : instance)
    (d : list (string * value)) (n : value) (pre post : list string)
    (attr : string) (e : exn) :
  self !! "name" = Some n →
  INTENT_ATTRS = (pre ++ attr :: post)%list →
  (∀ i a, a ∈ pre → Intents_setattr lib i a (resolved d a) = None) →
  Intents_setattr lib ((λ a, (a, resolved d a)) <$> pre) attr (resolved d attr)
  = Some e →
  build_intents lib self (VDict d) = (intent_lines n d (pre ++ [attr]), inl e).
Proof.
  intros Hn Hattrs Hpre Hattr. unfold build_intents. cbn [eq_None].
  assert (Hrec : ∀ a, a ∈ (pre ++ attr :: post)%list → a ∈ RECOGNIZED).
  { intros a Ha. by rewrite <- INTENT_ATTRS_RECOGNIZED, Hattrs. }
  rewrite Hattrs. clear Hattrs.
  enough (Hgen : ∀ assigned : list string,
            Intents_setattr lib
              ((λ a, (a, resolved d a)) <$> (assigned ++ pre)%list) attr
              (resolved d attr) = Some e →
            assign_intents lib self (VDict d) (pre ++ attr :: post)
              ((λ a, (a, resolved d a)) <$> assigned)
            = (intent_lines n d (pre ++ [attr]), inl e)).
  { pose proof (Hgen [] Hattr) as Hrun. simpl in Hrun. by rewrite Hrun. }
  clear Hattr. induction pre as [|p pre IH]; intros assigned Hattr; simpl.
  - rewrite (get_intent_dict self d attr n Hn) by (apply Hrec, list_elem_of_here).
    unfold mbind, M_bind. cbn [fst snd].
    rewrite app_nil_r in Hattr. by rewrite Hattr.
  - rewrite (get_intent_dict self d p n Hn) by (apply Hrec, list_elem_of_here).
    unfold mbind, M_bind. cbn [fst snd].
    rewrite Hpre by apply list_elem_of_here.
    replace (((λ a, (a, resolved d a)) <$> assigned) ++ [(p, resolved d p)])%list
      with ((λ a, (a, resolved d a)) <$> (assigned ++ [p])%list)
      by (by rewrite fmap_app).
    rewrite IH; [done | | |].
    + intros i a Ha. by apply Hpre, list_elem_of_further.
    + intros a Ha. by apply Hrec, list_elem_of_further.
    + by rewrite <- app_assoc.
Qed.

Lemma build_intents_refused_value_witness :
  build_intents discord_py (named "relay") (VDict [("bans", VStr "yes")])
  = (intent_lines (VStr "relay") [("bans", VStr "yes")]
       ["auto_moderation"; "auto_moderation_configuration";
        "auto_moderation_execution"; "bans"],
     inl (TypeError "Value to set for Intents must be a bool.")).
Proof.
  apply (build_intents_refused_value discord_py (named "relay")
           [("bans", VStr "yes")] (VStr "relay")
           ["auto_moderation"; "auto_moderation_configuration";
            "auto_moderation_execution"]
           ["dm_messages"; "dm_reactions"; "dm_typing"; "emojis_and_stickers";
            "guild_messages"; "guild_reactions"; "guild_scheduled_events";
            "guild_typing"; "guilds"; "integrations"; "invites"; "members";
            "message_content"; "presences"; "voice_states"; "webhooks"]
           "bans").
  - reflexivity.
  - reflexivity.
  - intros i a Ha.
    repeat (apply elem_of_cons in Ha as [-> | Ha]; [reflexivity |]).
    by apply elem_of_nil in Ha.
  - reflexivity.
Defined.

(** ** LiveChatBot: entries of other shapes, and the log of a construction *)

Lemma get_intent_DEFAULT_INTENTS (self : instance) (intent_name : option string) :
  get_intent self (VDict DEFAULT_INTENTS) intent_name
  = get_intent self (VDict []) intent_name.
Proof.
  destruct intent_name as [attr|]; [| done].
  unfold get_intent, DEFAULT_INTENTS_getitem. cbn [eq_None].
  destruct (dict_lookup attr DEFAULT_INTENTS) as [default|] eqn:Hdef; [| done].
  rewrite !bind_ret_l. unfold py_get. by rewrite Hdef.
Qed.

Lemma assign_intents_DEFAULT_INTENTS (lib : discord_lib) (self : instance)
    (attrs : list string) (acc : intents_obj) :
  assign_intents lib self (VDict DEFAULT_INTENTS) attrs acc
  = assign_intents lib self (VDict []) attrs acc.
Proof.
  revert acc. induction attrs as [|attr attrs IH]; intros acc; [done |].
  simpl. rewrite get_intent_DEFAULT_INTENTS. apply bind_ext. intros v.
  by destruct (Intents_setattr lib acc attr v).
Qed.

Lemma build_intents_DEFAULT_INTENTS (lib : discord_lib) (self : instance) :
  build_intents lib self (VDict DEFAULT_INTENTS) = build_intents lib self (VDict []).
Proof.
  unfold build_intents. cbn [eq_None].
  by rewrite assign_intents_DEFAULT_INTENTS.
Qed.

Lemma instance_of_dict_set (key : string) (v : value) (d : list (string * value)) :
  key ≠ "name" → key ≠ "display_name" →
  instance_of (dict_set key v d) = instance_of d.
Proof.
  intros H1 H2. unfold instance_of, get_or.
  by rewrite !dict_lookup_dict_set_ne.
Qed.

(** X7: leaving [intents] out of a bot configuration is the same as giving
    an empty mapping: construction runs alike, log and result included. *)
Theorem LiveChatBot_intents_absent (lib : discord_lib) (d : list (string * value)) :
  dict_lookup "intents" d = None →
  LiveChatBot lib (VDict (dict_set "intents" (VDict []) d))
  = LiveChatBot lib (VDict d).
Proof.
  intros Habsent.
  destruct (auth_accepted (get_or d "auth" (VStr ""))) eqn:Hauth.
  - rewrite !LiveChatBot_accepted; [| done |].
    + rewrite instance_of_dict_set by done. unfold get_or.
      rewrite dict_lookup_dict_set_eq, Habsent.
      rewrite dict_lookup_dict_set_ne by done. cbn [from_option id].
      by rewrite build_intents_DEFAULT_INTENTS.
    + unfold get_or. by rewrite dict_lookup_dict_set_ne.
  - rewrite !LiveChatBot_rejected; [done | done |].
    unfold get_or. by rewrite dict_lookup_dict_set_ne.
Qed.

Lemma LiveChatBot_intents_absent_witness :
  dict_lookup "intents" bot_minimal = None
  ∧ LiveChatBot discord_py (VDict [("auth", VStr "token"); ("intents", VDict [])])
    = LiveChatBot discord_py (VDict bot_minimal).
Proof.
  split; [reflexivity |].
  exact (LiveChatBot_intents_absent discord_py bot_minimal eq_refl).
Defined.

(** X8: a bot entry that is neither [None] nor a JSON object (a string, a
    number, a list) is not reported as a configuration problem: construction
    raises [AttributeError] at the first [get], with nothing logged. *)
Theorem LiveChatBot_not_an_object (lib : discord_lib) (configuration : value) :
  configuration ≠ VNone → not_an_object configuration →
  LiveChatBot lib configuration = raise (AttributeError "get").
Proof.
  intros Hnone Hobj. destruct configuration as [| | | | | |d]; try done.
  by destruct (Hobj d).
Qed.

Lemma LiveChatBot_not_an_object_witness :
  (VStr "relay" ≠ VNone) ∧ not_an_object (VStr "relay")
  ∧ LiveChatBot discord_py (VStr "relay") = raise (AttributeError "get").
Proof.
  assert (H1 : VStr "relay" ≠ VNone) by discriminate.
  assert (H2 : not_an_object (VStr "relay")) by (intros d; discriminate).
  split; [exact H1 | split; [exact H2 |]].
  exact (LiveChatBot_not_an_object discord_py _ H1 H2).
Defined.

(** X9: the log of a successful construction.  The [intents] entry is a
    mapping (the default table when absent); the twenty flag lines come
    first, under the configured name, then the superclass constructor is
    called once, with [None], and the line announcing the instance is
    last. *)
Theorem LiveChatBot_log (lib : discord_lib) (configuration : value)
    (self : instance) :
  outcome (LiveChatBot lib configuration) = inr self →
  ∃ d ov, configuration = VDict d
    ∧ get_or d "intents" (VDict DEFAULT_INTENTS) = VDict ov
    ∧ trace (LiveChatBot lib configuration)
      = (intent_lines (get_or d "name" (VStr "live_chat")) ov RECOGNIZED
         ++ [ SuperInit None;
              LogInfo (CreatedLine (get_or d "name" (VStr "live_chat"))) ])%list.
Proof.
  intros H. pose proof H as Hret.
  apply LiveChatBot_returns in Hret as (d & -> & Hauth & ->).
  exists d. rewrite LiveChatBot_accepted in H |- * by done.
  rewrite outcome_bind in H. rewrite trace_bind.
  destruct (outcome (build_intents lib (instance_of d)
                       (get_or d "intents" (VDict DEFAULT_INTENTS))))
    as [e|r] eqn:Hr; [done |].
  pose proof (build_intents_None _ _ _ _ Hr) as ->.
  destruct (build_intents_log _ _ _ _ Hr) as (ov & n & Hov & Hn & Hrun).
  exists ov. split; [done | split; [done |]].
  rewrite Hrun. unfold trace at 1. cbn [fst].
  unfold instance_of in Hn. rewrite lookup_insert_ne in Hn by done.
  rewrite lookup_insert_eq in Hn. injection Hn as <-.
  f_equal. revert H. unfold super_init.
  rewrite !outcome_bind, !trace_bind. simpl.
  by destruct (Client_init lib None).
Qed.

Lemma LiveChatBot_log_witness :
  outcome (LiveChatBot discord_py (VDict bot_webhooks_off))
  = inr (instance_of bot_webhooks_off)
  ∧ trace (LiveChatBot discord_py (VDict bot_webhooks_off))
    = (intent_lines (VStr "relay") [("webhooks", VBool false)] RECOGNIZED
       ++ [ SuperInit None; LogInfo (CreatedLine (VStr "relay")) ])%list.
Proof.
  assert (H : outcome (LiveChatBot discord_py (VDict bot_webhooks_off))
              = inr (instance_of bot_webhooks_off)) by (vm_compute; reflexivity).
  split; [exact H |].
  destruct (LiveChatBot_log discord_py _ _ H) as (d & ov & Hd & Hov & Htrace).
  injection Hd as <-. injection Hov as <-. exact Htrace.
Defined.

(** ** DiscordBotManager: the shapes of the file and of its bots entry *)

Section manager_shapes.

Context (lib : discord_lib) (h : host).

(** The manager once the file is decoded to the object [top]. *)
Lemma DiscordBotManager_decoded path top :
  loads h path top →
  DiscordBotManager lib h (Some path)
  = bots ← (let bots_data := get_or top "bots" (VList []) in
            if negb (eq_None bots_data) then
              n ← py_len bots_data;
              if Nat.ltb 0 n then
                items ← py_iter bots_data;
                append_bots lib items []
              else mret []
            else mret []);
    emit (LogInfo (ManagerLine (length bots)));;
    mret (manager_of top bots).
Proof.
  intros (f & Hfs & Hread & Hjson).
  unfold DiscordBotManager, isfile, access_R_OK.
  rewrite Hfs, Hread, Hjson. cbn [negb]. unfold py_get.
  by rewrite !bind_ret_l.
Qed.

Lemma append_bots_returns entries acc bs :
  outcome (append_bots lib entries acc) = inr bs →
  ∃ bs', construct_to lib entries bs' ∧ bs = (acc ++ bs')%list.
Proof.
  revert acc. induction entries as [|entry entries IH]; intros acc; simpl.
  - intros [= <-]. exists []. split; [constructor | by rewrite app_nil_r].
  - rewrite outcome_bind.
    destruct (outcome (LiveChatBot lib entry)) as [e|b] eqn:Hb; [done |].
    intros H. apply IH in H as (bs' & Hbs' & ->).
    exists (b :: bs'). split; [by constructor | by rewrite <- app_assoc].
Qed.

End manager_shapes.

(** X10: when the [bots] entry of the file is absent, null, or an empty
    list, mapping or string, the manager is built without bots: the only log
    line reports 0 instances, and address and port are the configured ones
    or the defaults. *)
Theorem DiscordBotManager_no_bots (lib : discord_lib) (h : host) (path : string)
    (top : list (string * value)) :
  loads h path top → no_bots top →
  DiscordBotManager lib h (Some path)
  = ([LogInfo (ManagerLine 0)], inr (manager_of top [])).
Proof.
  intros Hloads Hbots. rewrite (DiscordBotManager_decoded lib h path top Hloads).
  unfold get_or. by destruct Hbots as [-> | [-> | [-> | [-> | ->]]]].
Qed.

Lemma DiscordBotManager_no_bots_witness :
  loads (host_with "/srv/live_chat/configuration.json" (VDict [("bots", VNone)]))
    "/srv/live_chat/configuration.json" [("bots", VNone)]
  ∧ no_bots [("bots", VNone)]
  ∧ DiscordBotManager discord_py
      (host_with "/srv/live_chat/configuration.json" (VDict [("bots", VNone)]))
      (Some "/srv/live_chat/configuration.json")
    = ([LogInfo (ManagerLine 0)],
       inr {| listen_address := VStr "0.0.0.0"; listen_port := VInt 8080;
              bots := [] |}).
Proof.
  assert (H1 : loads (host_with "/srv/live_chat/configuration.json"
                        (VDict [("bots", VNone)]))
                 "/srv/live_chat/configuration.json" [("bots", VNone)]).
  { eexists. split; [reflexivity | split; reflexivity]. }
  assert (H2 : no_bots [("bots", VNone)]) by (right; left; reflexivity).
  split; [exact H1 | split; [exact H2 |]].
  exact (DiscordBotManager_no_bots discord_py _ _ _ H1 H2).
Defined.

(** X11: a [bots] entry that is a number or a boolean stops the load with
    [TypeError], raised by [len]; no bot is constructed and nothing is
    logged. *)
Theorem DiscordBotManager_bots_unsized (lib : discord_lib) (h : host)
    (path : string) (top : list (string * value)) (bots_data : value) :
  loads h path top →
  dict_lookup "bots" top = Some bots_data → unsized bots_data = true →
  DiscordBotManager lib h (Some path) = raise (TypeError "len").
Proof.
  intros Hloads Hbots Hunsized.
  rewrite (DiscordBotManager_decoded lib h path top Hloads).
  unfold get_or. rewrite Hbots. by destruct bots_data.
Qed.

Lemma DiscordBotManager_bots_unsized_witness :
  loads (host_with "/srv/live_chat/configuration.json" (VDict [("bots", VInt 2)]))
    "/srv/live_chat/configuration.json" [("bots", VInt 2)]
  ∧ DiscordBotManager discord_py
      (host_with "/srv/live_chat/configuration.json" (VDict [("bots", VInt 2)]))
      (Some "/srv/live_chat/configuration.json")
    = raise (TypeError "len").
Proof.
  assert (H1 : loads (host_with "/srv/live_chat/configuration.json"
                        (VDict [("bots", VInt 2)]))
                 "/srv/live_chat/configuration.json" [("bots", VInt 2)]).
  { eexists. split; [reflexivity | split; reflexivity]. }
  split; [exact H1 |].
  exact (DiscordBotManager_bots_unsized discord_py _ _ _ (VInt 2) H1 eq_refl eq_refl).
Defined.

(** X12: a [bots] entry that is a non-empty mapping or a non-empty string is
    iterated, by keys or by characters; the first item is a string, on which
    construction raises [AttributeError]: the load fails with that error
    and nothing logged. *)
Theorem DiscordBotManager_bots_mapping_or_string (lib : discord_lib) (h : host)
    (path : string) (top : list (string * value)) (bots_data : value) :
  loads h path top →
  dict_lookup "bots" top = Some bots_data →
  (∃ kv rest, bots_data = VDict (kv :: rest))
  ∨ (∃ c rest, bots_data = VStr (String c rest)) →
  DiscordBotManager lib h (Some path) = raise (AttributeError "get").
Proof.
  intros Hloads Hbots Hshape.
  rewrite (DiscordBotManager_decoded lib h path top Hloads).
  unfold get_or. rewrite Hbots.
  by destruct Hshape as [(kv & rest & ->) | (c & rest & ->)].
Qed.

Lemma DiscordBotManager_bots_mapping_or_string_witness :
  loads (host_with "/srv/live_chat/configuration.json"
           (VDict [("bots", VDict [("relay", VDict bot_minimal)])]))
    "/srv/live_chat/configuration.json"
    [("bots", VDict [("relay", VDict bot_minimal)])]
  ∧ DiscordBotManager discord_py
      (host_with "/srv/live_chat/configuration.json"
         (VDict [("bots", VDict [("relay", VDict bot_minimal)])]))
      (Some "/srv/live_chat/configuration.json")
    = raise (AttributeError "get").
Proof.
  assert (H1 : loads (host_with "/srv/live_chat/configuration.json"
                        (VDict [("bots", VDict [("relay", VDict bot_minimal)])]))
                 "/srv/live_chat/configuration.json"
                 [("bots", VDict [("relay", VDict bot_minimal)])]).
  { eexists. split; [reflexivity | split; reflexivity]. }
  split; [exact H1 |].
  refine (DiscordBotManager_bots_mapping_or_string discord_py _ _ _ _ H1 eq_refl _).
  left. eexists. eexists. reflexivity.
Defined.

(** X13: when the file is readable JSON but its top level is not an object
    (a list, a string, a number, null), the load raises [AttributeError] at
    the first [get]; no bot is constructed and nothing is logged. *)
Theorem DiscordBotManager_not_an_object (lib : discord_lib) (h : host)
    (path : string) (f : file) (json_data : value) :
  fs h path = Some (Regular f) → readable f = true →
  json_load h (content f) = Some json_data → not_an_object json_data →
  DiscordBotManager lib h (Some path) = raise (AttributeError "get").
Proof.
  intros Hfs Hread Hjson Hobj.
  unfold DiscordBotManager, isfile, access_R_OK.
  rewrite Hfs, Hread, Hjson. cbn [negb].
  destruct json_data as [| | | | | |d]; try done.
  by destruct (Hobj d).
Qed.

Lemma DiscordBotManager_not_an_object_witness :
  not_an_object (VList [VDict bot_minimal])
  ∧ DiscordBotManager discord_py
      (host_with "/srv/live_chat/configuration.json" (VList [VDict bot_minimal]))
      (Some "/srv/live_chat/configuration.json")
    = raise (AttributeError "get").
Proof.
  assert (H : not_an_object (VList [VDict bot_minimal])) by (intros d; discriminate).
  split; [exact H |].
  exact (DiscordBotManager_not_an_object discord_py
           (host_with "/srv/live_chat/configuration.json" (VList [VDict bot_minimal]))
           "/srv/live_chat/configuration.json"
           {| readable := true; content := "{...}" |} _
           eq_refl eq_refl eq_refl H).
Defined.

(** X14: a load that succeeds has constructed every entry of the bots
    array: the manager holds one bot per entry, in order, the log is the logs
    of the constructions followed by one line with their number, and address
    and port are taken as they are, without validation. *)
Theorem DiscordBotManager_all_or_nothing (lib : discord_lib) (h : host)
    (path : string) (top : list (string * value)) (entries : list value)
    (m : manager) :
  loads h path top →
  dict_lookup "bots" top = Some (VList entries) →
  outcome (DiscordBotManager lib h (Some path)) = inr m →
  construct_to lib entries (bots m)
  ∧ m = manager_of top (bots m)
  ∧ trace (DiscordBotManager lib h (Some path))
    = (traces lib entries ++ [LogInfo (ManagerLine (length entries))])%list.
Proof.
  intros Hloads Hbots.
  rewrite (DiscordBotManager_loads lib h path top entries Hloads Hbots).
  rewrite outcome_bind, trace_bind.
  destruct (outcome (append_bots lib entries [])) as [e|bs] eqn:Hbs; [done |].
  apply append_bots_returns in Hbs as (bs' & Hbs' & ->).
  rewrite (append_bots_construct_to lib entries bs' [] Hbs').
  simpl. intros [= <-]. split; [done | split; [done |]].
  unfold trace. simpl. by rewrite (Forall2_length _ _ _ Hbs').
Qed.

Lemma DiscordBotManager_all_or_nothing_witness :
  outcome (load discord_py [VDict bot_minimal; VDict bot_webhooks_off])
  = inr {| listen_address := VStr "127.0.0.1"; listen_port := VInt 8080;
           bots := [instance_of bot_minimal; instance_of bot_webhooks_off] |}
  ∧ construct_to discord_py [VDict bot_minimal; VDict bot_webhooks_off]
      [instance_of bot_minimal; instance_of bot_webhooks_off]
  ∧ trace (load discord_py [VDict bot_minimal; VDict bot_webhooks_off])
    = (traces discord_py [VDict bot_minimal; VDict bot_webhooks_off]
       ++ [LogInfo (ManagerLine 2)])%list.
Proof.
  assert (H : outcome (load discord_py [VDict bot_minimal; VDict bot_webhooks_off])
              = inr {| listen_address := VStr "127.0.0.1"; listen_port := VInt 8080;
                       bots := [instance_of bot_minimal;
                                instance_of bot_webhooks_off] |})
    by (vm_compute; reflexivity).
  split; [exact H |].
  destruct (DiscordBotManager_all_or_nothing discord_py _ _ _ _ _
              (load_loads _) eq_refl H) as (H1 & _ & H3).
  split; [exact H1 | exact H3].
Defined.

(** ** Program entry: which arguments matter *)

Lemma configuration_path_second (h : host) (argv argv' : list string) :
  argv !! 1 = argv' !! 1 → configuration_path h argv = configuration_path h argv'.
Proof.
  unfold configuration_path.
  destruct argv as [|p [|directory rest]], argv' as [|p' [|directory' rest']];
    simpl; try done.
  by intros [= ->].
Qed.

(** X15: the program looks at its first argument only.  Two command lines
    with the same first argument (or both without one) run alike, whatever
    the program name and the arguments after the first. *)
Theorem main_first_argument_only (lib : discord_lib) (h : host)
    (argv argv' : list string) :
  argv !! 1 = argv' !! 1 → main lib h argv = main lib h argv'.
Proof.
  intros H. rewrite !main_configuration_path.
  by rewrite (configuration_path_second h argv argv' H).
Qed.

Lemma main_first_argument_only_witness :
  main discord_py
    (host_with "/etc/live_chat/configuration.json" (configuration_with []))
    ["live_chat.py"; "/etc/live_chat"; "--verbose"; "extra"]
  = main discord_py
      (host_with "/etc/live_chat/configuration.json" (configuration_with []))
      ["python"; "/etc/live_chat"].
Proof.
  exact (main_first_argument_only discord_py _
           ["live_chat.py"; "/etc/live_chat"; "--verbose"; "extra"]
           ["python"; "/etc/live_chat"] eq_refl).
Defined.

(** X16: a slash at the end of the directory argument makes no difference:
    for a non-empty directory that does not end with a slash, the program
    runs alike with and without one appended. *)
Theorem main_trailing_slash (lib : discord_lib) (h : host)
    (prog directory : string) (rest : list string) :
  directory ≠ "" → ends_with_sep directory = false →
  main lib h (prog :: (directory ++ "/") :: rest)
  = main lib h (prog :: directory :: rest).
Proof.
  intros Hne Hsep. rewrite !main_configuration_path. f_equal. f_equal.
  unfold configuration_path.
  rewrite ends_with_sep_append_sep, orb_true_r, Hsep, orb_false_r.
  destruct (String.eqb_spec directory ""); [done | done].
Qed.

Lemma main_trailing_slash_witness :
  ("/etc/live_chat" ≠ "") ∧ ends_with_sep "/etc/live_chat" = false
  ∧ main discord_py host_empty ["live_chat.py"; "/etc/live_chat/"]
    = main discord_py host_empty ["live_chat.py"; "/etc/live_chat"].
Proof.
  assert (H1 : "/etc/live_chat" ≠ "") by discriminate.
  split; [exact H1 | split; [reflexivity |]].
  exact (main_trailing_slash discord_py host_empty "live_chat.py"
           "/etc/live_chat" [] H1 eq_refl).
Defined.

(** X17: a whole run.  When [configuration.json] in the chosen directory
    decodes to an object whose bots array constructs entry by entry, the
    program ends with a manager that holds those bots in order; the log is
    the logs of the constructions and then the line with their number. *)
Theorem main_builds_manager (lib : discord_lib) (h : host) (argv : list string)
    (top : list (string * value)) (entries : list value) (bs : list instance) :
  loads h (configuration_path h argv) top →
  dict_lookup "bots" top = Some (VList entries) →
  construct_to lib entries bs →
  main lib h argv
  = ((traces lib entries ++ [LogInfo (ManagerLine (length entries))])%list,
     inr (manager_of top bs)).
Proof.
  intros Hloads Hbots Hentries. rewrite main_configuration_path.
  rewrite (DiscordBotManager_loads lib h _ top entries Hloads Hbots).
  rewrite (append_bots_construct_to lib entries bs [] Hentries).
  unfold mbind, M_bind. simpl.
  by rewrite (Forall2_length _ _ _ Hentries).
Qed.

Lemma main_builds_manager_witness :
  loads (host_with "/etc/live_chat/configuration.json"
           (configuration_with [VDict bot_minimal]))
    (configuration_path
       (host_with "/etc/live_chat/configuration.json"
          (configuration_with [VDict bot_minimal]))
       ["live_chat.py"; "/etc/live_chat"])
    [ ("address", VStr "127.0.0.1"); ("port", VInt 8080);
      ("bots", VList [VDict bot_minimal]) ]
  ∧ construct_to discord_py [VDict bot_minimal] [instance_of bot_minimal]
  ∧ outcome (main discord_py
               (host_with "/etc/live_chat/configuration.json"
                  (configuration_with [VDict bot_minimal]))
               ["live_chat.py"; "/etc/live_chat"])
    = inr {| listen_address := VStr "127.0.0.1"; listen_port := VInt 8080;
             bots := [instance_of bot_minimal] |}.
Proof.
  assert (H1 : loads (host_with "/etc/live_chat/configuration.json"
                        (configuration_with [VDict bot_minimal]))
                 (configuration_path
                    (host_with "/etc/live_chat/configuration.json"
                       (configuration_with [VDict bot_minimal]))
                    ["live_chat.py"; "/etc/live_chat"])
                 [ ("address", VStr "127.0.0.1"); ("port", VInt 8080);
                   ("bots", VList [VDict bot_minimal]) ]).
  { eexists. split; [reflexivity | split; reflexivity]. }
  assert (H2 : construct_to discord_py [VDict bot_minimal] [instance_of bot_minimal]).
  { constructor; [vm_compute; reflexivity | constructor]. }
  split; [exact H1 | split; [exact H2 |]].
  exact (f_equal snd (main_builds_manager discord_py _ _ _ _ _ H1 eq_refl H2)).
Defined.

(** ** configure_logger *)

Section logging_facts.

Context {handler : Type} `{EqDecision handler}.
Context (log_stream_handler log_file_handler : handler).

Lemma remove_handlers_step (i : nat) (l : list handler) :
  remove_handlers i l
  = match l !! i with
    | Some hdlr => remove_handlers (S i) (removeHandler hdlr l)
    | None => l
    end.
Proof.
  funelim (remove_handlers i l).
  - by rewrite Hi.
  - match goal with Hnone : _ !! _ = None |- _ => by rewrite Hnone end.
Qed.

Lemma list_remove_first_middle (x : handler) (pre rest : list handler) :
  x ∉ pre → list_remove_first x (pre ++ x :: rest) = (pre ++ rest)%list.
Proof.
  induction pre as [|y pre IH]; simpl; intros Hx.
  - by rewrite decide_True.
  - apply not_elem_of_cons in Hx as [Hxy Hx].
    rewrite decide_False by done. f_equal. by apply IH.
Qed.

Lemma removeHandler_middle (x : handler) (pre rest : list handler) :
  NoDup (pre ++ x :: rest) →
  removeHandler x (pre ++ x :: rest) = (pre ++ rest)%list.
Proof.
  intros Hnd. unfold removeHandler.
  rewrite decide_True
    by (apply elem_of_app; right; apply list_elem_of_here).
  apply list_remove_first_middle.
  apply NoDup_app in Hnd as (_ & Hdisj & _).
  intros Hx. apply (Hdisj x Hx), list_elem_of_here.
Qed.

(** On handlers without repetition, the loop of [configure_logger] removes
    the first, third, fifth, ... handler and leaves the others. *)
Lemma remove_handlers_every_second (pre rest : list handler) :
  NoDup (pre ++ rest) →
  remove_handlers (length pre) (pre ++ rest) = (pre ++ every_second rest)%list.
Proof.
  remember (length rest) as n eqn:Hn. revert pre rest Hn.
  induction (lt_wf n) as [n _ IH]. intros pre rest -> Hnd.
  rewrite remove_handlers_step.
  destruct rest as [|x [|kept rest]].
  - by rewrite lookup_ge_None_2 by (rewrite app_nil_r; lia).
  - rewrite list_lookup_middle by done. rewrite removeHandler_middle by done.
    rewrite remove_handlers_step.
    by rewrite lookup_ge_None_2 by (rewrite app_nil_r; lia).
  - rewrite list_lookup_middle by done. rewrite removeHandler_middle by done.
    replace (pre ++ kept :: rest)%list with ((pre ++ [kept]) ++ rest)%list
      by (by rewrite <- app_assoc).
    replace (S (length pre)) with (length (pre ++ [kept])%list)
      by (rewrite length_app; simpl; lia).
    rewrite (IH (length rest)); [| simpl; lia | done |].
    + simpl. by rewrite <- app_assoc.
    + rewrite <- app_assoc. simpl.
      apply NoDup_app in Hnd as (Hpre & Hdisj & Hrest).
      apply NoDup_app. split; [done |]. split.
      * intros y Hy Hin. apply (Hdisj y Hy). by apply list_elem_of_further.
      * by apply NoDup_cons in Hrest as [_ ?].
Qed.

Lemma every_second_elem_of (l : list handler) (x : handler) :
  x ∈ every_second l → x ∈ l.
Proof.
  remember (length l) as n eqn:Hn. revert l Hn.
  induction (lt_wf n) as [n _ IH]. intros [|y [|kept rest]] ->; simpl;
    [done | by intros ?%elem_of_nil |].
  intros [-> | Hx]%elem_of_cons.
  - apply list_elem_of_further, list_elem_of_here.
  - do 2 apply list_elem_of_further.
    by apply (IH (length rest) ltac:(simpl; lia) rest eq_refl).
Qed.

Lemma every_second_NoDup (l : list handler) : NoDup l → NoDup (every_second l).
Proof.
  remember (length l) as n eqn:Hn. revert l Hn.
  induction (lt_wf n) as [n _ IH]. intros [|x [|kept rest]] -> Hnd; simpl;
    [constructor | constructor |].
  apply NoDup_cons in Hnd as [_ Hnd]. apply NoDup_cons in Hnd as [Hk Hnd].
  apply NoDup_cons. split.
  - intros Hin. by apply Hk, every_second_elem_of.
  - by apply (IH (length rest) ltac:(simpl; lia) rest eq_refl).
Qed.

Lemma elem_of_addHandler (x hdlr : handler) (l : list handler) :
  x ∈ addHandler hdlr l ↔ x ∈ l ∨ x = hdlr.
Proof.
  unfold addHandler. case_decide as Hin.
  - split; [by left | by intros [? | ->]].
  - rewrite elem_of_app, list_elem_of_singleton. done.
Qed.

Lemma NoDup_addHandler (hdlr : handler) (l : list handler) :
  NoDup l → NoDup (addHandler hdlr l).
Proof.
  intros Hnd. unfold addHandler. case_decide as Hin; [done |].
  apply NoDup_app. split; [done |]. split; [| apply NoDup_singleton].
  by intros x Hx ->%list_elem_of_singleton.
Qed.

Lemma configure_logger_lookup (logger_name : string) (loggers : gmap string logger) :
  configure_logger log_stream_handler log_file_handler logger_name loggers
    !! logger_name
  = Some {| level := LOG_LEVEL;
            handlers :=
              addHandler log_file_handler
                (addHandler log_stream_handler
                   (remove_handlers 0 (handlers (getLogger logger_name loggers)))) |}.
Proof. unfold configure_logger. by rewrite lookup_insert_eq. Qed.

End logging_facts.

(** X18: what [configure_logger] leaves on a logger whose handlers are
    distinct.  The level is [LOG_LEVEL]; the handlers are again distinct and
    are the stream handler, the file handler and every second one of the old
    handlers (the second, fourth, ...): the loop removes while it iterates,
    so it skips the handler that follows each one it removes.  No other
    logger is touched. *)
Theorem configure_logger_handlers {handler : Type} `{EqDecision handler}
    (log_stream_handler log_file_handler : handler) (logger_name : string)
    (loggers : gmap string logger) :
  NoDup (handlers (getLogger logger_name loggers)) →
  ∃ configured,
    configure_logger log_stream_handler log_file_handler logger_name loggers
      !! logger_name = Some configured
    ∧ level configured = LOG_LEVEL
    ∧ NoDup (handlers configured)
    ∧ (∀ hdlr, hdlr ∈ handlers configured ↔
         hdlr ∈ every_second (handlers (getLogger logger_name loggers))
         ∨ hdlr = log_stream_handler ∨ hdlr = log_file_handler)
    ∧ (∀ other, other ≠ logger_name →
         configure_logger log_stream_handler log_file_handler logger_name loggers
           !! other = loggers !! other).
Proof.
  intros Hnd. eexists. split; [apply configure_logger_lookup |].
  pose proof (remove_handlers_every_second [] _ Hnd) as Hloop.
  simpl in Hloop. rewrite Hloop.
  split; [done |]. split; [| split].
  - by apply NoDup_addHandler, NoDup_addHandler, every_second_NoDup.
  - intros hdlr. simpl. rewrite !elem_of_addHandler. tauto.
  - intros other Hother. unfold configure_logger.
    by rewrite lookup_insert_ne.
Qed.

Lemma configure_logger_handlers_witness :
  NoDup (handlers (getLogger "discord"
                     ({[ "discord" := {| level := 30; handlers := [7; 8; 9] |} ]}
                      : gmap string logger)))
  ∧ ∃ configured,
      configure_logger 1 2 "discord"
        {[ "discord" := {| level := 30; handlers := [7; 8; 9] |} ]}
        !! "discord" = Some configured
      ∧ level configured = LOG_LEVEL
      ∧ handlers configured = [8; 1; 2].
Proof.
  assert (H : NoDup (handlers (getLogger "discord"
                ({[ "discord" := {| level := 30; handlers := [7; 8; 9] |} ]}
                 : gmap string logger)))) by by_compute.
  split; [exact H |].
  destruct (configure_logger_handlers 1 2 "discord" _ H)
    as (configured & Hlookup & Hlevel & _).
  exists configured. split; [exact Hlookup | split; [exact Hlevel |]].
  vm_compute in Hlookup. injection Hlookup as <-. reflexivity.
Defined.

Section logging_uses.

Context {handler : Type} `{EqDecision handler}.
Context (log_stream_handler log_file_handler : handler).

Lemma addHandler_both (l : list handler) :
  log_stream_handler ≠ log_file_handler →
  l = [] →
  addHandler log_file_handler (addHandler log_stream_handler l)
  = [log_stream_handler; log_file_handler].
Proof.
  intros Hne ->.
  assert (Hstream : addHandler log_stream_handler [] = [log_stream_handler]).
  { unfold addHandler. rewrite decide_False; [done |]. by intros ?%elem_of_nil. }
  rewrite Hstream. unfold addHandler. rewrite decide_False; [done |].
  intros Hin%list_elem_of_singleton. congruence.
Qed.

Lemma remove_handlers_short (l : list handler) :
  (length l ≤ 1)%nat → remove_handlers 0 l = [].
Proof.
  intros Hlen. destruct l as [|x [|y l]]; [| | simpl in Hlen; lia].
  - by rewrite remove_handlers_step.
  - rewrite (remove_handlers_every_second [] [x]); [done |].
    apply NoDup_singleton.
Qed.

End logging_uses.

(** X19: on a logger with at most one handler (a new logger, or the root
    logger after [basicConfig]), [configure_logger] leaves exactly the
    stream handler and the file handler, in this order, at level
    [LOG_LEVEL]. *)
Theorem configure_logger_fresh {handler : Type} `{EqDecision handler}
    (log_stream_handler log_file_handler : handler) (logger_name : string)
    (loggers : gmap string logger) :
  log_stream_handler ≠ log_file_handler →
  (length (handlers (getLogger logger_name loggers)) ≤ 1)%nat →
  configure_logger log_stream_handler log_file_handler logger_name loggers
    !! logger_name
  = Some {| level := LOG_LEVEL;
            handlers := [log_stream_handler; log_file_handler] |}.
Proof.
  intros Hne Hlen. rewrite configure_logger_lookup.
  by rewrite (addHandler_both _ _ _ Hne (remove_handlers_short _ Hlen)).
Qed.

Lemma configure_logger_fresh_witness :
  (1 ≠ 2)
  ∧ (length (handlers (getLogger "discord.http" (∅ : gmap string (@logger nat)))) ≤ 1)%nat
  ∧ configure_logger 1 2 "discord.http" ∅ !! "discord.http"
    = Some {| level := 20; handlers := [1; 2] |}.
Proof.
  assert (H1 : 1 ≠ 2) by lia.
  assert (H2 : (length (handlers (getLogger "discord.http"
                                    (∅ : gmap string (@logger nat)))) ≤ 1)%nat)
    by (vm_compute; lia).
  split; [exact H1 | split; [exact H2 |]].
  exact (configure_logger_fresh 1 2 "discord.http" ∅ H1 H2).
Defined.

(** X20: configuring a logger twice attaches no handler twice.  From a
    logger with at most one handler, the second call removes the stream
    handler, skips the file handler and appends the stream handler again:
    the same two handlers remain, in the other order. *)
Theorem configure_logger_twice {handler : Type} `{EqDecision handler}
    (log_stream_handler log_file_handler : handler) (logger_name : string)
    (loggers : gmap string logger) :
  log_stream_handler ≠ log_file_handler →
  (length (handlers (getLogger logger_name loggers)) ≤ 1)%nat →
  configure_logger log_stream_handler log_file_handler logger_name
    (configure_logger log_stream_handler log_file_handler logger_name loggers)
    !! logger_name
  = Some {| level := LOG_LEVEL;
            handlers := [log_file_handler; log_stream_handler] |}.
Proof.
  intros Hne Hlen. rewrite configure_logger_lookup.
  unfold getLogger at 1.
  rewrite (configure_logger_fresh _ _ _ _ Hne Hlen). simpl.
  rewrite (remove_handlers_every_second [] [log_stream_handler; log_file_handler]).
  - simpl.
    assert (Hstream : addHandler log_stream_handler [log_file_handler]
                      = [log_file_handler; log_stream_handler]).
    { unfold addHandler. rewrite decide_False; [done |].
      intros Hin%list_elem_of_singleton. congruence. }
    rewrite Hstream. unfold addHandler. rewrite decide_True; [done |].
    apply list_elem_of_here.
  - simpl. apply NoDup_cons. split; [| apply NoDup_singleton].
    intros Hin%list_elem_of_singleton. congruence.
Qed.

Lemma configure_logger_twice_witness :
  (1 ≠ 2)
  ∧ (length (handlers (getLogger "root"
                         ({[ "root" := {| level := 30; handlers := [5] |} ]}
                          : gmap string logger))) ≤ 1)%nat
  ∧ configure_logger 1 2 "root"
      (configure_logger 1 2 "root"
         {[ "root" := {| level := 30; handlers := [5] |} ]}) !! "root"
    = Some {| level := 20; handlers := [2; 1] |}.
Proof.
  assert (H1 : 1 ≠ 2) by lia.
  assert (H2 : (length (handlers (getLogger "root"
                  ({[ "root" := {| level := 30; handlers := [5] |} ]}
                   : gmap string logger))) ≤ 1)%nat) by (vm_compute; lia).
  split; [exact H1 | split; [exact H2 |]].
  exact (configure_logger_twice 1 2 "root" _ H1 H2).
Defined.
